(** * Cross-chain transfer scripts: orchestration flows and their properties

    Shallow embedding of the two scripts of the repository,

    - [src/scripts/token-transfer-payload.ts] (function [tokenTransfer]) and
    - [src/scripts/create-wrapped.ts] (the attestation flow and [waitForIt]),

    as programs of a small monad that threads the state of the outside
    world (chains, bridge SDK, clock) and records every call made to a
    collaborator together with the answer it gave.  The SDK and the helper
    module are not part of the scripts: they are an interface ([Sdk]) whose
    operations may answer or reject in any way, so that every theorem holds
    for every behaviour of the chains. *)

From Stdlib Require Import ZArith List String Bool Lia Arith.
Import ListNotations.

Local Open Scope Z_scope.
Local Open Scope string_scope.
Local Open Scope list_scope.

Set Implicit Arguments.

(** ** Values thrown by a JavaScript program *)

Inductive Thrown : Type :=
| ThrowString (s : string)        (* [throw "..."] *)
| ThrowError (msg : string)       (* [throw new Error("...")] *)
| ThrowTypeError (msg : string)   (* property read on [undefined] *)
| Rejected (code : nat).          (* a promise rejected by a collaborator *)

(** ** The monad of an [async] function

    A computation starts in a world [w], ends in a world [w'], has
    recorded a trace of events and either returned, thrown, or is still
    running when the iteration budget of the model is used up
    ([Pending]; the budget belongs to the model, never to the program). *)

Inductive Res (A : Type) : Type :=
| Ok (a : A)
| Throw (e : Thrown)
| Pending.

Arguments Ok {A} a.
Arguments Throw {A} e.
Arguments Pending {A}.

Section Monad.
Variables W E : Type.

Definition M (A : Type) : Type := W -> Res A * W * list E.

Definition ret {A} (a : A) : M A := fun w => (Ok a, w, []).

Definition throw {A} (e : Thrown) : M A := fun w => (Throw e, w, []).

Definition pending {A} : M A := fun w => (Pending, w, []).

Definition bind {A B} (m : M A) (k : A -> M B) : M B :=
  fun w =>
    match m w with
    | (Ok a, w1, t1) =>
        match k a w1 with
        | (r, w2, t2) => (r, w2, t1 ++ t2)
        end
    | (Throw e, w1, t1) => (Throw e, w1, t1)
    | (Pending, w1, t1) => (Pending, w1, t1)
    end.

(** [await op]: the collaborator answers [inr a] or rejects with
    [inl e]; the event built by [ev] from the answer is recorded. *)
Definition await {A} (op : W -> (Thrown + A) * W)
           (ev : Thrown + A -> E) : M A :=
  fun w =>
    match op w with
    | (inr a, w1) => (Ok a, w1, [ev (inr a)])
    | (inl e, w1) => (Throw e, w1, [ev (inl e)])
    end.

(** An effect that cannot fail (console output, a synchronous call that
    only builds a value). *)
Definition emit (e : E) : M unit := fun w => (Ok tt, w, [e]).

(** [try { body } catch (e) { handler e }] *)
Definition try_catch {A} (body : M A) (handler : Thrown -> M A) : M A :=
  fun w =>
    match body w with
    | (Throw e, w1, t1) =>
        match handler e w1 with
        | (r, w2, t2) => (r, w2, t1 ++ t2)
        end
    | other => other
    end.

Definition result {A} (x : Res A * W * list E) : Res A := fst (fst x).
Definition final {A} (x : Res A * W * list E) : W := snd (fst x).
Definition trace {A} (x : Res A * W * list E) : list E := snd x.
End Monad.

Arguments ret {W E A} a.
Arguments throw {W E A} e.
Arguments pending {W E A}.
Arguments emit {W E} e.

Declare Scope js_scope.
Delimit Scope js_scope with js.
Notation "x <- m ;; k" := (bind m (fun x => k))
  (at level 61, m at next level, right associativity) : js_scope.
Notation "m ;;; k" := (bind m (fun _ => k))
  (at level 61, right associativity) : js_scope.

(** JavaScript truthiness of a value of type [boolean | undefined]. *)
Definition truthy (b : option bool) : bool :=
  match b with
  | Some true => true
  | _ => false
  end.

(** [a ?? d] *)
Definition nullish {A} (a : option A) (d : A) : A :=
  match a with
  | Some x => x
  | None => d
  end.

(** ** Values shared by the two scripts *)

Definition Chain := string.
Definition TxId := string.

(** [TokenId]: a [{chain, address}] pair. *)
Record TokenId : Type := { tok_chain : Chain; tok_address : string }.

Record ChainAddress : Type := { ca_chain : Chain; ca_address : string }.

(** A chain context holds the chain name (and a cached rpc client, which
    lives in the world). *)
Record ChainContext : Type := { chain : Chain }.

Record Signer : Type := { signer_chain : Chain; signer_address : string }.

(** [SignerStuff] of the helper module: the fields the scripts read. *)
Record SignerStuff : Type :=
  { ss_chain : ChainContext; ss_signer : Signer; ss_address : ChainAddress }.

(** A bridge message identifier, as returned by [parseTransaction] and
    [fetchAttestation]. *)
Record MessageId : Type :=
  { msg_chain : Chain; msg_emitter : string; msg_sequence : Z }.

(** * [token-transfer-payload.ts] *)

Module TokenTransferPayload.

(** The [route] argument of [tokenTransfer]. *)
Record Delivery : Type := { automatic : bool; nativeGas : option Z }.

Record Route : Type :=
  { token : TokenId;
    amount : Z;                          (* bigint, base units *)
    source : SignerStuff;
    destination : SignerStuff;
    delivery : option Delivery;          (* [delivery?] *)
    payload : option (list Byte.byte) }. (* [payload?: Uint8Array] *)

(** [xfer.transfer]: the details a transfer object was created with. *)
Record TokenTransferDetails : Type :=
  { td_token : TokenId;
    td_amount : Z;
    td_from : ChainAddress;
    td_to : ChainAddress;
    td_automatic : bool;
    td_payload : option (list Byte.byte);
    td_nativeGas : option Z }.

(** The transfer object; [xfer_id] is the identity of the object. *)
Record Xfer : Type := { xfer_id : nat; transfer : TokenTransferDetails }.

(** [quote.destinationToken] is a [{token, amount}] pair. *)
Record TokenAmount : Type := { ta_token : TokenId; ta_amount : Z }.

Record Quote : Type :=
  { destinationToken : TokenAmount; relayFee : option TokenAmount }.

(** Arguments given to [console.log]. *)
Inductive LogArg : Type :=
| LStr (s : string)
| LQuote (q : Quote)
| LTxIds (ids : list TxId)
| LMsgIds (ids : list MessageId).

(** One event per call that leaves the function. *)
Inductive Event : Type :=
| EvTokenTransfer (d : TokenTransferDetails) (r : Thrown + Xfer)
| EvQuoteTransfer (src dst : ChainContext) (d : TokenTransferDetails)
                  (r : Thrown + Quote)
| EvInitiateTransfer (x : Xfer) (s : Signer) (r : Thrown + list TxId)
| EvFetchAttestation (x : Xfer) (timeout : Z)
                     (r : Thrown + list MessageId)
| EvCompleteTransfer (x : Xfer) (s : Signer) (r : Thrown + list TxId)
| EvConsoleLog (args : list LogArg).

(** The operations of the bridge SDK that [tokenTransfer] calls.  Each
    may answer or reject depending on the world in any way; the only
    thing assumed is that a transfer object keeps the delivery flag it
    was created with. *)
Record Sdk (W : Type) : Type :=
  { wh_tokenTransfer :
      TokenTransferDetails -> W -> (Thrown + Xfer) * W;
    quoteTransfer :
      ChainContext -> ChainContext -> TokenTransferDetails ->
      W -> (Thrown + Quote) * W;
    initiateTransfer : Xfer -> Signer -> W -> (Thrown + list TxId) * W;
    fetchAttestation : Xfer -> Z -> W -> (Thrown + list MessageId) * W;
    completeTransfer : Xfer -> Signer -> W -> (Thrown + list TxId) * W;
    transfer_keeps_automatic :
      forall d w x w',
        wh_tokenTransfer d w = (inr x, w') ->
        td_automatic (transfer x) = td_automatic d }.

Definition too_low : string :=
  "The amount requested is too low to cover the fee and any native gas requested.".

(** The arguments of [wh.tokenTransfer] at lines 124-130. *)
Definition transfer_details (route : Route) : TokenTransferDetails :=
  {| td_token := token route;
     td_amount := amount route;
     td_from := ss_address (source route);
     td_to := ss_address (destination route);
     (* route.delivery?.automatic ?? false *)
     td_automatic := nullish (option_map automatic (delivery route)) false;
     td_payload := payload route;
     (* route.delivery?.nativeGas *)
     td_nativeGas :=
       match delivery route with
       | Some d => nativeGas d
       | None => None
       end |}.

(** The request of the recursive call, lines 165-172:
    [{...route, token: token.token, amount: token.amount,
      source: route.destination, destination: route.source}]
    with [token = quote.destinationToken]. *)
Definition second_leg (route : Route) (quote : Quote) : Route :=
  let token' := destinationToken quote in
  {| token := ta_token token';
     amount := ta_amount token';
     source := destination route;
     destination := source route;
     delivery := delivery route;
     payload := payload route |}.

(** ** What a trace says about a transfer

    The spec's record of a transfer keeps, per transfer object, the ids
    returned by the source-chain submission ([srcTxids] in the script),
    the attestation ids ([attestIds]) and the ids returned by the
    destination-chain submission ([destTxids]). *)

Definition same_xfer (x y : Xfer) : bool := Nat.eqb (xfer_id x) (xfer_id y).

Definition sourceTxIds (x : Xfer) (t : list Event) : list TxId :=
  flat_map (fun e =>
              match e with
              | EvInitiateTransfer y _ (inr ids) =>
                  if same_xfer x y then ids else []
              | _ => []
              end) t.


Definition destinationTxIds (x : Xfer) (t : list Event) : list TxId :=
  flat_map (fun e =>
              match e with
              | EvCompleteTransfer y _ (inr ids) =>
                  if same_xfer x y then ids else []
              | _ => []
              end) t.

(** A transaction submission: [initiateTransfer] on the source chain or
    [completeTransfer] on the destination chain. *)
Definition is_submission (e : Event) : bool :=
  match e with
  | EvInitiateTransfer _ _ _ | EvCompleteTransfer _ _ _ => true
  | _ => false
  end.

Definition is_fetchAttestation (e : Event) : bool :=
  match e with
  | EvFetchAttestation _ _ _ => true
  | _ => false
  end.

Definition is_completeTransfer (e : Event) : bool :=
  match e with
  | EvCompleteTransfer _ _ _ => true
  | _ => false
  end.

(** Every activation of [tokenTransfer] starts by creating its transfer
    object, so the activations of a run are counted by these events. *)
Definition is_tokenTransfer (e : Event) : bool :=
  match e with
  | EvTokenTransfer _ _ => true
  | _ => false
  end.

Definition activations (t : list Event) : nat :=
  List.length (filter is_tokenTransfer t).

(** The quote a run obtained first (the quote of its first leg). *)
Fixpoint quote_of (t : list Event) : option Quote :=
  match t with
  | [] => None
  | EvQuoteTransfer _ _ _ (inr q) :: _ => Some q
  | _ :: t' => quote_of t'
  end.

(** Every source-chain submission in the trace comes after a quote that
    was computed for the details of the same transfer object. *)
Definition quoted_before_submission (seen t : list Event) : Prop :=
  forall pre x s r post,
    t = pre ++ EvInitiateTransfer x s r :: post ->
    exists src dst q,
      In (EvQuoteTransfer src dst (transfer x) (inr q)) (seen ++ pre).

(** [route.delivery?.automatic] is truthy. *)
Definition is_automatic (route : Route) : bool :=
  truthy (option_map automatic (delivery route)).

Section Flow.
Context {W : Type} (wh : Sdk W).

Local Open Scope js_scope.

Let Task := M W Event.

(** One activation of [tokenTransfer]; [self] stands for the function
    itself at the recursive call of line 166. *)
Definition tokenTransfer_body
           (self : Route -> option bool -> Task Xfer)
           (route : Route) (roundTrip : option bool) : Task Xfer :=
  (* const xfer = await wh.tokenTransfer(...) *)
  xfer <- await (wh_tokenTransfer wh (transfer_details route))
                (EvTokenTransfer (transfer_details route)) ;;
  (* const quote = await TokenTransfer.quoteTransfer(...) *)
  quote <- await (quoteTransfer wh (ss_chain (source route))
                                (ss_chain (destination route))
                                (transfer xfer))
                 (EvQuoteTransfer (ss_chain (source route))
                                  (ss_chain (destination route))
                                  (transfer xfer)) ;;
  emit (EvConsoleLog [LQuote quote]) ;;;
  if td_automatic (transfer xfer)
     && (ta_amount (destinationToken quote) <? 0)%Z
  then throw (ThrowString too_low)
  else
    (* 1) Submit the transactions to the source chain *)
    emit (EvConsoleLog [LStr "Starting transfer"]) ;;;
    srcTxids <- await (initiateTransfer wh xfer (ss_signer (source route)))
                      (EvInitiateTransfer xfer (ss_signer (source route))) ;;
    emit (EvConsoleLog [LStr "Started transfer: "; LTxIds srcTxids]) ;;;
    (* If automatic, we're done: if (route.delivery?.automatic) return xfer *)
    if is_automatic route
    then ret xfer
    else
      (* 2) Wait for the VAA to be signed and ready *)
      emit (EvConsoleLog [LStr "Getting Attestation"]) ;;;
      attestIds <- await (fetchAttestation wh xfer 60000)
                         (EvFetchAttestation xfer 60000) ;;
      emit (EvConsoleLog [LStr "Got Attestation: "; LMsgIds attestIds]) ;;;
      (* 3) Redeem the VAA on the dest chain *)
      emit (EvConsoleLog [LStr "Completing Transfer"]) ;;;
      destTxids <- await (completeTransfer wh xfer
                                           (ss_signer (destination route)))
                         (EvCompleteTransfer xfer
                                           (ss_signer (destination route))) ;;
      emit (EvConsoleLog [LStr "Completed Transfer: "; LTxIds destTxids]) ;;;
      (* If no need to send back, dip *)
      if negb (truthy roundTrip)
      then ret xfer
      else self (second_leg route quote) None.

(** The recursive function, unfolded [depth] times. *)
Fixpoint tokenTransfer (depth : nat) (route : Route)
         (roundTrip : option bool) : Task Xfer :=
  match depth with
  | O => pending
  | S depth' => tokenTransfer_body (tokenTransfer depth') route roundTrip
  end.

End Flow.

(** ** A test double of the SDK

    The world is the number of calls answered so far.  Every call succeeds;
    an automatic transfer is quoted at [amount - fee], a manual one at
    [amount]. *)

Definition demo_quote (fee : Z) (dst : ChainContext)
           (d : TokenTransferDetails) : Quote :=
  {| destinationToken :=
       {| ta_token := {| tok_chain := chain dst; tok_address := "wrapped" |};
          ta_amount := if td_automatic d then td_amount d - fee
                       else td_amount d |};
     relayFee :=
       if td_automatic d
       then Some {| ta_token := td_token d; ta_amount := fee |}
       else None |}.

Definition demo_sdk (fee : Z) : Sdk nat :=
  {| wh_tokenTransfer := fun d w => (inr {| xfer_id := w; transfer := d |}, S w);
     quoteTransfer := fun _ dst d w => (inr (demo_quote fee dst d), S w);
     initiateTransfer := fun _ _ w => (inr ["0xsource"], S w);
     fetchAttestation := fun x _ w =>
       (inr [{| msg_chain := ca_chain (td_from (transfer x));
                msg_emitter := "token-bridge";
                msg_sequence := Z.of_nat w |}], S w);
     completeTransfer := fun _ _ w => (inr ["0xdestination"], S w);
     transfer_keeps_automatic :=
       ltac:(intros d w x w' H; inversion H; reflexivity) |}.

Definition avalanche : ChainContext := {| chain := "Avalanche" |}.
Definition solana : ChainContext := {| chain := "Solana" |}.

Definition sender : SignerStuff :=
  {| ss_chain := avalanche;
     ss_signer := {| signer_chain := "Avalanche"; signer_address := "0xA" |};
     ss_address := {| ca_chain := "Avalanche"; ca_address := "0xA" |} |}.

Definition receiver : SignerStuff :=
  {| ss_chain := solana;
     ss_signer := {| signer_chain := "Solana"; signer_address := "So1" |};
     ss_address := {| ca_chain := "Solana"; ca_address := "So1" |} |}.

(** The request of the script: 10 units of a token with 8 decimals. *)
Definition demo_route (auto : bool) : Route :=
  {| token := {| tok_chain := "Avalanche";
                 tok_address := "0xE66b9BBB3DFf4d4444F7Dbb6c7BB4a110d1d91a3" |};
     amount := 10 * 10 ^ 8;
     source := sender;
     destination := receiver;
     delivery := Some {| automatic := auto;
                         nativeGas := if auto then Some 1000000 else None |};
     payload :=
       (* encoding.bytes.encode("Hello World!") *)
       Some [Byte.x48; Byte.x65; Byte.x6c; Byte.x6c; Byte.x6f; Byte.x20;
             Byte.x57; Byte.x6f; Byte.x72; Byte.x6c; Byte.x64; Byte.x21] |}.


End TokenTransferPayload.

(** * [create-wrapped.ts] *)

Module CreateWrapped.

(** A token bridge client of one chain. *)
Record TokenBridge : Type := { tb_chain : Chain }.

(** An entry of the array returned by [signSendWait]. *)
Record TxRef : Type := { tx_chain : Chain; txid : TxId }.

(** The signed attestation; the script reads [vaa.payload.token.address]. *)
Record VAA : Type := { payload_token_address : string; vaa_hash : string }.

(** The unsigned transactions handed to [signSendWait].  Both bridge
    methods are generators: calling them submits nothing, the
    transactions are produced when [signSendWait] consumes them. *)
Inductive Txns : Type :=
| CreateAttestationTxns (tb : TokenBridge) (token : string) (payer : string)
| SubmitAttestationTxns (tb : TokenBridge) (vaa : VAA) (payer : string).

(** The value returned by the script and by [waitForIt]:
    [{ chain: destChain.chain, address: wrapped }]. *)
Record Wrapped : Type := { w_chain : Chain; w_address : string }.

Inductive LogArg : Type :=
| LStr (s : string)
| LTokenId (t : TokenId)
| LInspect (txs : list TxRef)
| LTxs (txs : list TxRef)
| LTxId (id : TxId)
| LMsgs (msgs : list MessageId)
| LWrapped (r : Wrapped)
| LThrown (e : Thrown).

Inductive Event : Type :=
| EvWormhole (network : string) (platforms : list string) (r : Thrown + unit)
| EvGetSigner (c : ChainContext) (gasLimit : option Z)
              (r : Thrown + SignerStuff)
| EvGetTokenBridge (c : ChainContext) (r : Thrown + TokenBridge)
| EvGetWrappedAsset (tb : TokenBridge) (t : TokenId) (r : Thrown + string)
| EvCreateAttestation (tb : TokenBridge) (token : string) (payer : string)
| EvSubmitAttestation (tb : TokenBridge) (vaa : VAA) (payer : string)
| EvSignSendWait (c : ChainContext) (txns : Txns) (s : Signer)
                 (r : Thrown + list TxRef)
| EvParseTransaction (c : ChainContext) (id : TxId)
                     (r : Thrown + list MessageId)
| EvGetVaa (id : option MessageId) (kind : string) (timeout : Z)
           (r : Thrown + option VAA)
| EvSetTimeout (ms : Z)
| EvConsoleLog (args : list LogArg)
| EvConsoleError (args : list LogArg).

(** What the script needs from the SDK, the helper module and the clock. *)
Record Sdk (W : Type) : Type :=
  { wormhole : string -> list string -> W -> (Thrown + unit) * W;
    getSigner : ChainContext -> option Z -> W -> (Thrown + SignerStuff) * W;
    getTokenBridge : ChainContext -> W -> (Thrown + TokenBridge) * W;
    getWrappedAsset : TokenBridge -> TokenId -> W -> (Thrown + string) * W;
    (* a static function: it reads no state but may reject its input *)
    parseAddress : Chain -> string -> Thrown + string;
    signSendWait :
      ChainContext -> Txns -> Signer -> W -> (Thrown + list TxRef) * W;
    parseTransaction :
      ChainContext -> TxId -> W -> (Thrown + list MessageId) * W;
    (* the message id is [undefined] when the script reads past the end
       of an empty array *)
    getVaa :
      option MessageId -> string -> Z -> W -> (Thrown + option VAA) * W;
    (* the world once the delay has elapsed *)
    setTimeout : Z -> W -> W }.

(** [`${protocol}:${payload}`], the way the SDK names a payload type. *)
Definition payloadLiteral (protocol payloadName : string) : string :=
  String.append protocol (String.append ":" payloadName).

Definition attest_meta : string := "TokenBridge:AttestMeta".

(** [const timeout = 25 * 60 * 1000] *)
Definition timeout : Z := 25 * 60 * 1000.

Definition vaa_not_found : string :=
  "VAA not found after retries exhausted. Try extending the timeout.".

Definition undefined_txid : string :=
  "Cannot read properties of undefined (reading 'txid')".

Definition origChain : ChainContext := {| chain := "Avalanche" |}.
Definition destChain : ChainContext := {| chain := "Solana" |}.

(** [Wormhole.tokenId(origChain.chain, "0xE66b...")] *)
Definition tokenId : TokenId :=
  {| tok_chain := chain origChain;
     tok_address := "0xE66b9BBB3DFf4d4444F7Dbb6c7BB4a110d1d91a3" |}.

(** [BigInt(2_500_000)] *)
Definition gasLimit : Z := 2500000.

(** ** Reading a trace *)

Definition is_getWrappedAsset (e : Event) : bool :=
  match e with
  | EvGetWrappedAsset _ _ _ => true
  | _ => false
  end.

Definition is_createAttestation (e : Event) : bool :=
  match e with
  | EvCreateAttestation _ _ _ => true
  | _ => false
  end.

(** Transactions are submitted by [signSendWait] only. *)
Definition is_signSendWait (e : Event) : bool :=
  match e with
  | EvSignSendWait _ _ _ _ => true
  | _ => false
  end.

Definition is_parseTransaction (e : Event) : bool :=
  match e with
  | EvParseTransaction _ _ _ => true
  | _ => false
  end.

Definition is_getVaa (e : Event) : bool :=
  match e with
  | EvGetVaa _ _ _ _ => true
  | _ => false
  end.

Definition is_setTimeout (e : Event) : bool :=
  match e with
  | EvSetTimeout _ => true
  | _ => false
  end.

(** The kinds of event [waitForIt] gives rise to. *)
Definition is_polling (e : Event) : bool :=
  match e with
  | EvGetWrappedAsset _ _ _ | EvSetTimeout _
  | EvConsoleLog _ | EvConsoleError _ => true
  | _ => false
  end.

(** The events of one unsuccessful iteration of [waitForIt]: the lookup
    rejects with [e], two console lines, the two-second delay. *)
Definition failed_round (tbDest : TokenBridge) (e : Thrown) : list Event :=
  [ EvGetWrappedAsset tbDest tokenId (inl e);
    EvConsoleError [LStr "Wrapped asset not found yet. Retrying..."];
    EvConsoleLog [LStr "Waiting before checking again..."];
    EvSetTimeout 2000 ].

Section Flow.
Context {W : Type} (wh : Sdk W).

Local Open Scope js_scope.

Let Task := M W Event.

(** A synchronous call that may throw. *)
Definition call {A} (r : Thrown + A) : Task A :=
  match r with
  | inr a => ret a
  | inl e => throw e
  end.

(** [await new Promise((r) => setTimeout(r, ms))] *)
Definition delay (ms : Z) : Task unit :=
  fun w => (Ok tt, setTimeout wh ms w, [EvSetTimeout ms]).

(** [waitForIt], lines 90-101.  [rounds] bounds the iterations the model
    follows; the loop itself is [do ... while (true)]. *)
Fixpoint waitForIt (tbDest : TokenBridge) (rounds : nat) : Task Wrapped :=
  match rounds with
  | O => pending
  | S rounds' =>
      found <- try_catch
                 (wrapped <- await (getWrappedAsset wh tbDest tokenId)
                                   (EvGetWrappedAsset tbDest tokenId) ;;
                  ret (Some {| w_chain := chain destChain;
                               w_address := wrapped |}))
                 (fun e =>
                    emit (EvConsoleError
                            [LStr "Wrapped asset not found yet. Retrying..."]) ;;;
                    ret None) ;;
      match found with
      | Some r => ret r
      | None =>
          emit (EvConsoleLog [LStr "Waiting before checking again..."]) ;;;
          delay 2000 ;;;
          waitForIt tbDest rounds'
      end
  end.

(** The body of the script, lines 8-104 without the final [.catch]. *)
Definition createWrapped (rounds : nat) : Task (option Wrapped) :=
  await (wormhole wh "Testnet" ["Evm"; "Solana"; "Sui"])
        (EvWormhole "Testnet" ["Evm"; "Solana"; "Sui"]) ;;;
  emit (EvConsoleLog
          [LStr (String.append "token ID for "
                               (String.append (chain origChain) ": "));
           LTokenId tokenId]) ;;;
  (* Destination chain signer setup *)
  dest <- await (getSigner wh destChain (Some gasLimit))
                (EvGetSigner destChain (Some gasLimit)) ;;
  let destSigner := ss_signer dest in
  tbDest <- await (getTokenBridge wh destChain) (EvGetTokenBridge destChain) ;;
  (* Check if the token is already wrapped on the destination chain *)
  already <- try_catch
               (wrapped <- await (getWrappedAsset wh tbDest tokenId)
                                 (EvGetWrappedAsset tbDest tokenId) ;;
                emit (EvConsoleLog
                        [LStr (String.append "Token already wrapped on "
                                 (String.append (chain destChain)
                                    ". Skipping attestation."))]) ;;;
                ret (Some {| w_chain := chain destChain;
                             w_address := wrapped |}))
               (fun e =>
                  emit (EvConsoleLog
                          [LStr (String.append "No wrapped token found on "
                                   (String.append (chain destChain)
                                      ". Proceeding with attestation."))]) ;;;
                  ret None) ;;
  match already with
  | Some r => ret (Some r)
  | None =>
      (* Source chain signer setup *)
      orig <- await (getSigner wh origChain None)
                    (EvGetSigner origChain None) ;;
      let origSigner := ss_signer orig in
      (* Create an attestation transaction on the source chain *)
      tbOrig <- await (getTokenBridge wh origChain)
                      (EvGetTokenBridge origChain) ;;
      payer <- call (parseAddress wh (signer_chain origSigner)
                                  (signer_address origSigner)) ;;
      emit (EvCreateAttestation tbOrig (tok_address tokenId) payer) ;;;
      let attestTxns :=
        CreateAttestationTxns tbOrig (tok_address tokenId) payer in
      (* Submit the attestation transaction *)
      txids <- await (signSendWait wh origChain attestTxns origSigner)
                     (EvSignSendWait origChain attestTxns origSigner) ;;
      emit (EvConsoleLog [LStr "txids: "; LInspect txids]) ;;;
      (* const txid = txids[0]!.txid *)
      txid0 <- match txids with
               | tx :: _ => ret (txid tx)
               | [] => throw (ThrowTypeError undefined_txid)
               end ;;
      emit (EvConsoleLog [LStr "Created attestation (save this): ";
                          LTxId txid0]) ;;;
      (* Retrieve the Wormhole message ID from the attestation transaction *)
      msgs <- await (parseTransaction wh origChain txid0)
                    (EvParseTransaction origChain txid0) ;;
      emit (EvConsoleLog [LStr "Parsed Messages:"; LMsgs msgs]) ;;;
      (* Fetch the signed VAA: wh.getVaa(msgs[0]!, ...) *)
      vaa <- await (getVaa wh (hd_error msgs) attest_meta timeout)
                   (EvGetVaa (hd_error msgs) attest_meta timeout) ;;
      match vaa with
      | None => throw (ThrowError vaa_not_found)
      | Some vaa =>
          emit (EvConsoleLog [LStr "Token Address: ";
                              LStr (payload_token_address vaa)]) ;;;
          (* Submit the attestation on the destination chain *)
          emit (EvConsoleLog
                  [LStr "Attesting asset on destination chain..."]) ;;;
          payer' <- call (parseAddress wh (signer_chain destSigner)
                                       (signer_address destSigner)) ;;
          emit (EvSubmitAttestation tbDest vaa payer') ;;;
          let subAttestation := SubmitAttestationTxns tbDest vaa payer' in
          tsx <- await (signSendWait wh destChain subAttestation destSigner)
                       (EvSignSendWait destChain subAttestation destSigner) ;;
          emit (EvConsoleLog [LStr "Transaction hash: "; LTxs tsx]) ;;;
          (* Poll for the wrapped asset until it's available *)
          r <- waitForIt tbDest rounds ;;
          emit (EvConsoleLog [LStr "Wrapped Asset: "; LWrapped r]) ;;;
          ret None
      end
  end.

(** The whole script: [(async function () {...})().catch((e) =>
    console.error(e))]. *)
Definition main (rounds : nat) : Task unit :=
  try_catch (createWrapped rounds ;;; ret tt)
            (fun e => emit (EvConsoleError [LThrown e])).

(** The world after [n] lookups in a row have failed, each followed by
    the delay of the loop; [None] if one of them succeeds. *)
Fixpoint after_failures (tbDest : TokenBridge) (n : nat) (w : W) : option W :=
  match n with
  | O => Some w
  | S n' =>
      match getWrappedAsset wh tbDest tokenId w with
      | (inl _, w1) => after_failures tbDest n' (setTimeout wh 2000 w1)
      | (inr _, _) => None
      end
  end.

End Flow.

(** ** A test double of the SDK

    The world counts the wrapped-asset lookups made so far.  The token
    becomes registered once [registered_after] lookups have failed (never,
    if [None]); the other answers are fixed by the scenario. *)

Record Scenario : Type :=
  { registered_after : option nat;
    sent : list TxRef;                     (* answer of [signSendWait] *)
    parsed : list MessageId;               (* answer of [parseTransaction] *)
    signed : option MessageId -> option VAA (* answer of [getVaa] *) }.

Definition demo_signer (c : ChainContext) : SignerStuff :=
  {| ss_chain := c;
     ss_signer := {| signer_chain := chain c; signer_address := "0xA" |};
     ss_address := {| ca_chain := chain c; ca_address := "0xA" |} |}.

Definition demo_sdk (sc : Scenario) : Sdk nat :=
  {| wormhole := fun _ _ w => (inr tt, w);
     getSigner := fun c _ w => (inr (demo_signer c), w);
     getTokenBridge := fun c w => (inr {| tb_chain := chain c |}, w);
     getWrappedAsset := fun _ _ w =>
       match registered_after sc with
       | Some n => if (n <=? w)%nat then (inr "wrapped-address", S w)
                   else (inl (Rejected 404), S w)
       | None => (inl (Rejected 404), S w)
       end;
     parseAddress := fun _ a => inr a;
     signSendWait := fun _ _ _ w => (inr (sent sc), w);
     parseTransaction := fun _ _ w => (inr (parsed sc), w);
     getVaa := fun id _ _ w => (inr (signed sc id), w);
     setTimeout := fun _ w => w |}.

Definition demo_msg : MessageId :=
  {| msg_chain := "Avalanche"; msg_emitter := "token-bridge";
     msg_sequence := 7 |}.

Definition demo_vaa : VAA :=
  {| payload_token_address := "0xE66b9BBB3DFf4d4444F7Dbb6c7BB4a110d1d91a3";
     vaa_hash := "0xhash" |}.

(** Not registered yet; every collaborator answers with one element. *)
Definition fresh_token (n : option nat) : Scenario :=
  {| registered_after := n;
     sent := [{| tx_chain := "Avalanche"; txid := "0xattest" |}];
     parsed := [demo_msg];
     signed := fun id => match id with
                         | Some _ => Some demo_vaa
                         | None => None
                         end |}.


(** As [fresh_token], but submitting the attestation returns no
    transaction id. *)
Definition nothing_sent : Scenario :=
  {| registered_after := Some 1%nat;
     sent := [];
     parsed := [demo_msg];
     signed := fun id => match id with
                         | Some _ => Some demo_vaa
                         | None => None
                         end |}.

(** The attestation is never signed within the timeout. *)
Definition never_signed : Scenario :=
  {| registered_after := Some 1%nat;
     sent := [{| tx_chain := "Avalanche"; txid := "0xattest" |}];
     parsed := [demo_msg];
     signed := fun _ => None |}.


End CreateWrapped.

(** * The entry point of [token-transfer-payload.ts] *)

Module TransferScript.
Import TokenTransferPayload.

(** The constants the script fixes at lines 46-74, which its comments
    invite to edit. *)
Record Settings : Type :=
  { amt : string;
    set_automatic : bool;
    set_roundTrip : bool;
    recoverTxid : option TxId }.

(** The values in the file:
    [amt = "10"], [automatic = false], [roundTrip = false],
    [recoverTxid = undefined]. *)
Definition shipped : Settings :=
  {| amt := "10";
     set_automatic := false;
     set_roundTrip := false;
     recoverTxid := None |}.

(** JavaScript truthiness of a value of type [string | undefined]. *)
Definition truthy_string (s : option string) : bool :=
  match s with
  | Some s' => negb (String.eqb s' "")
  | None => false
  end.

(** The value printed at the end: what [waitLog] resolves with. *)
Definition Receipt := string.

Inductive ScriptEvent : Type :=
| Transfer (e : Event)               (* an event of [tokenTransfer] *)
| EvWormhole (network : string) (platforms : list string) (r : Thrown + unit)
| EvGetSigner (c : ChainContext) (r : Thrown + SignerStuff)
| EvGetDecimals (c : Chain) (address : string) (r : Thrown + Z)
| EvFrom (c : Chain) (txid : TxId) (r : Thrown + Xfer)
| EvWaitLog (x : Xfer) (r : Thrown + Receipt)
| EvLogReceipt (receipt : Receipt).

(** What the script needs beyond the operations of [tokenTransfer]. *)
Record ScriptSdk (W : Type) : Type :=
  { transfer_sdk : Sdk W;
    wormhole : string -> list string -> W -> (Thrown + unit) * W;
    getSigner : ChainContext -> W -> (Thrown + SignerStuff) * W;
    getDecimals : Chain -> string -> W -> (Thrown + Z) * W;
    (* [amount.units(amount.parse(text, decimals))]: reads no state, may
       reject its input *)
    units_parse : string -> Z -> Thrown + Z;
    (* [TokenTransfer.from(wh, {chain, txid})] *)
    from_txid : Chain -> TxId -> W -> (Thrown + Xfer) * W;
    waitLog : Xfer -> W -> (Thrown + Receipt) * W }.

Definition sendChain : ChainContext := {| chain := "Avalanche" |}.
Definition rcvChain : ChainContext := {| chain := "Solana" |}.

(** [Wormhole.tokenId(sendChain.chain, "0xE66b...")] *)
Definition script_token : TokenId :=
  {| tok_chain := chain sendChain;
     tok_address := "0xE66b9BBB3DFf4d4444F7Dbb6c7BB4a110d1d91a3" |}.

(** [encoding.bytes.encode("Hello World!")] *)
Definition hello_world : list Byte.byte :=
  [Byte.x48; Byte.x65; Byte.x6c; Byte.x6c; Byte.x6f; Byte.x20;
   Byte.x57; Byte.x6f; Byte.x72; Byte.x6c; Byte.x64; Byte.x21].

Section Script.
Context {W : Type} (wh : ScriptSdk W).

Local Open Scope js_scope.

Let Task := M W ScriptEvent.

(** A computation of [tokenTransfer] run inside the script. *)
Definition inside {A} (m : M W Event A) : Task A :=
  fun w =>
    match m w with
    | (r, w', t) => (r, w', map Transfer t)
    end.

Definition pure_call {A} (r : Thrown + A) : Task A :=
  match r with
  | inr a => ret a
  | inl e => throw e
  end.

(** Lines 17-105.  [depth] bounds the unfolding of [tokenTransfer]. *)
Definition script (cfg : Settings) (depth : nat) : Task unit :=
  await (wormhole wh "Testnet" ["Evm"; "Solana"])
        (EvWormhole "Testnet" ["Evm"; "Solana"]) ;;;
  let token := script_token in
  (* const nativeGas = automatic ? "0.01" : undefined *)
  let nativeGas := if set_automatic cfg then Some "0.01" else None in
  source <- await (getSigner wh sendChain) (EvGetSigner sendChain) ;;
  destination <- await (getSigner wh rcvChain) (EvGetSigner rcvChain) ;;
  (* isTokenId(token) holds of every [TokenId] *)
  decimals <- await (getDecimals wh (tok_chain token) (tok_address token))
                    (EvGetDecimals (tok_chain token) (tok_address token)) ;;
  let payload := hello_world in
  xfer <- (if negb (truthy_string (recoverTxid cfg))
           then
             amount <- pure_call (units_parse wh (amt cfg) decimals) ;;
             gas <- match nativeGas with
                    | Some text =>
                        if negb (String.eqb text "")
                        then g <- pure_call (units_parse wh text decimals) ;;
                             ret (Some g)
                        else ret None
                    | None => ret None
                    end ;;
             inside
               (tokenTransfer (transfer_sdk wh) depth
                  {| token := token;
                     amount := amount;
                     source := source;
                     destination := destination;
                     delivery := Some {| automatic := set_automatic cfg;
                                         nativeGas := gas |};
                     payload := Some payload |}
                  (Some (set_roundTrip cfg)))
           else
             (* Recover the transfer from the originating txid *)
             await (from_txid wh (chain (ss_chain source))
                              (nullish (recoverTxid cfg) ""))
                   (EvFrom (chain (ss_chain source))
                           (nullish (recoverTxid cfg) ""))) ;;
  receipt <- await (waitLog wh xfer) (EvWaitLog xfer) ;;
  (* Log out the results *)
  emit (EvLogReceipt receipt).

(** The script as it is in the file. *)
Definition main (depth : nat) : Task unit := script shipped depth.

End Script.

(** The events of [tokenTransfer] within a trace of the script. *)
Definition transfer_events (t : list ScriptEvent) : list Event :=
  flat_map (fun e => match e with
                     | Transfer e' => [e']
                     | _ => []
                     end) t.

Definition is_from (e : ScriptEvent) : bool :=
  match e with
  | EvFrom _ _ _ => true
  | _ => false
  end.

Definition is_waitLog (e : ScriptEvent) : bool :=
  match e with
  | EvWaitLog _ _ => true
  | _ => false
  end.

(** ** A test double *)

Definition demo_units (text : string) (decimals : Z) : Thrown + Z :=
  if String.eqb text "10" then inr (10 * 10 ^ decimals)
  else if String.eqb text "0.01" then inr (10 ^ (decimals - 2))
  else inl (ThrowError "invalid amount").

Definition demo_script_sdk (fee : Z) : ScriptSdk nat :=
  {| transfer_sdk := demo_sdk fee;
     wormhole := fun _ _ w => (inr tt, w);
     getSigner := fun c w =>
       (inr (if String.eqb (chain c) "Avalanche" then sender else receiver), w);
     getDecimals := fun _ _ w => (inr 8, w);
     units_parse := demo_units;
     from_txid := fun c id w =>
       (inr {| xfer_id := w;
               transfer := transfer_details (demo_route false) |}, S w);
     waitLog := fun x w => (inr "receipt", w) |}.

End TransferScript.

(** * Further readings of the traces *)

Module TransferTrace.
Import TokenTransferPayload.

(** The error a collaborator rejected a call with, if the event records
    a rejection. *)
Definition rejection (e : Event) : option Thrown :=
  match e with
  | EvTokenTransfer _ (inl err)
  | EvQuoteTransfer _ _ _ (inl err)
  | EvInitiateTransfer _ _ (inl err)
  | EvFetchAttestation _ _ (inl err)
  | EvCompleteTransfer _ _ (inl err) => Some err
  | _ => None
  end.

(** No call of the trace was rejected. *)
Definition clean (t : list Event) : bool :=
  forallb (fun e => match rejection e with
                    | Some _ => false
                    | None => true
                    end) t.

Definition is_quoteTransfer (e : Event) : bool :=
  match e with
  | EvQuoteTransfer _ _ _ _ => true
  | _ => false
  end.

Definition is_initiateTransfer (e : Event) : bool :=
  match e with
  | EvInitiateTransfer _ _ _ => true
  | _ => false
  end.

(** What must have happened before an event of a trace: a destination
    submission needs the attestation of the same transfer object, fetched
    with the timeout of one minute; fetching needs the source submission
    of that object. *)
Definition phase_requirement (e : Event) (earlier : list Event) : Prop :=
  match e with
  | EvCompleteTransfer x _ _ =>
      exists att, In (EvFetchAttestation x 60000 (inr att)) earlier
  | EvFetchAttestation x _ _ =>
      exists s ids, In (EvInitiateTransfer x s (inr ids)) earlier
  | _ => True
  end.

(** Every event of [t] has what it requires among the events before it
    ([seen] being those before [t]). *)
Definition ordered (seen t : list Event) : Prop :=
  forall pre e post,
    t = pre ++ e :: post -> phase_requirement e (seen ++ pre).

(** A run stops at the first rejected call and throws its error. *)
Definition fail_stop (t : list Event) (r : Res Xfer) : Prop :=
  clean t = true \/
  exists pre ev err,
    t = pre ++ [ev] /\ clean pre = true /\ rejection ev = Some err /\
    r = Throw err.

(** Why a run threw [err]: its last call was rejected with [err], or no
    call was rejected and the guard of line 141 threw its message on a
    negative quote for an automatic transfer. *)
Definition explained (t : list Event) (err : Thrown) : Prop :=
  (exists pre ev,
      t = pre ++ [ev] /\ clean pre = true /\ rejection ev = Some err) \/
  (clean t = true /\ err = ThrowString too_low /\
   exists pre src dst d q,
     t = pre ++ [EvQuoteTransfer src dst d (inr q); EvConsoleLog [LQuote q]] /\
     td_automatic d = true /\ ta_amount (destinationToken q) < 0).

Section Shape.
Context {W : Type} (wh : Sdk W).

(** The forms a run of [tokenTransfer] can take: nothing (the recursion
    is not unfolded), one activation, or a first activation that returned
    followed by the return leg (one activation, or nothing when the
    recursion is unfolded only once). *)
Inductive run_shape (route : Route) (roundTrip : option bool) (w : W) :
  Res Xfer * W * list Event -> Prop :=
| shape_none : run_shape route roundTrip w (Pending, w, [])
| shape_one :
    truthy roundTrip && negb (is_automatic route) = false \/
    (forall x, result (tokenTransfer wh 1 route None w) <> Ok x) ->
    run_shape route roundTrip w (tokenTransfer wh 1 route None w)
| shape_two x w' t q r' w'' t' :
    tokenTransfer wh 1 route None w = (Ok x, w', t) ->
    truthy roundTrip = true ->
    is_automatic route = false ->
    quote_of t = Some q ->
    (r', w'', t') = (Pending, w', []) \/
    (r', w'', t') = tokenTransfer wh 1 (second_leg route q) None w' ->
    run_shape route roundTrip w (r', w'', t ++ t').

End Shape.

(** A test double whose call number [fail_at] is rejected (the world
    counts the calls answered so far). *)
Definition flaky {A} (fail_at : nat) (a : A) (w : nat) : (Thrown + A) * nat :=
  if Nat.eqb w fail_at then (inl (Rejected w), S w) else (inr a, S w).

Definition flaky_sdk (fee : Z) (fail_at : nat) : Sdk nat :=
  {| wh_tokenTransfer := fun d w =>
       flaky fail_at {| xfer_id := w; transfer := d |} w;
     quoteTransfer := fun _ dst d w => flaky fail_at (demo_quote fee dst d) w;
     initiateTransfer := fun _ _ w => flaky fail_at ["0xsource"] w;
     fetchAttestation := fun x _ w =>
       flaky fail_at [{| msg_chain := ca_chain (td_from (transfer x));
                         msg_emitter := "token-bridge";
                         msg_sequence := Z.of_nat w |}] w;
     completeTransfer := fun _ _ w => flaky fail_at ["0xdestination"] w;
     transfer_keeps_automatic :=
       ltac:(intros d w x w' H; unfold flaky in H;
             destruct (Nat.eqb w fail_at); inversion H; reflexivity) |}.

End TransferTrace.

Module AttestationTrace.
Import CreateWrapped.

(** The error a collaborator rejected a call with. *)
Definition rejection (e : Event) : option Thrown :=
  match e with
  | EvWormhole _ _ (inl err)
  | EvGetSigner _ _ (inl err)
  | EvGetTokenBridge _ (inl err)
  | EvGetWrappedAsset _ _ (inl err)
  | EvSignSendWait _ _ _ (inl err)
  | EvParseTransaction _ _ (inl err)
  | EvGetVaa _ _ _ (inl err) => Some err
  | _ => None
  end.

(** No call of the trace was rejected, wrapped-asset lookups apart. *)
Definition clean (t : list Event) : bool :=
  forallb (fun e => match rejection e with
                    | Some _ => is_getWrappedAsset e
                    | None => true
                    end) t.

Definition is_getSigner (e : Event) : bool :=
  match e with
  | EvGetSigner _ _ _ => true
  | _ => false
  end.

Definition is_getTokenBridge (e : Event) : bool :=
  match e with
  | EvGetTokenBridge _ _ => true
  | _ => false
  end.

Definition is_submitAttestation (e : Event) : bool :=
  match e with
  | EvSubmitAttestation _ _ _ => true
  | _ => false
  end.

(** A rejected call, wrapped-asset lookups apart, ends the run with its
    error. *)
Definition fail_stop (t : list Event) (r : Res (option Wrapped)) : Prop :=
  clean t = true \/
  exists pre ev err,
    t = pre ++ [ev] /\ clean pre = true /\ rejection ev = Some err /\
    is_getWrappedAsset ev = false /\ r = Throw err.

(** A test double that rejects every call to the chain named
    [down]; the other answers are those of [demo_sdk]. *)
Definition outage_sdk (down : Chain) (sc : Scenario) : Sdk nat :=
  {| wormhole := wormhole (demo_sdk sc);
     getSigner := getSigner (demo_sdk sc);
     getTokenBridge := fun c w =>
       if String.eqb (chain c) down then (inl (Rejected 503), w)
       else getTokenBridge (demo_sdk sc) c w;
     getWrappedAsset := getWrappedAsset (demo_sdk sc);
     parseAddress := parseAddress (demo_sdk sc);
     signSendWait := fun c txns s w =>
       if String.eqb (chain c) down then (inl (Rejected 503), w)
       else signSendWait (demo_sdk sc) c txns s w;
     parseTransaction := parseTransaction (demo_sdk sc);
     getVaa := getVaa (demo_sdk sc);
     setTimeout := setTimeout (demo_sdk sc) |}.

End AttestationTrace.

(** * Properties of [tokenTransfer] *)

Module TransferProperties.
Import TokenTransferPayload.

Ltac sdk_call :=
  match goal with
  | |- context [wh_tokenTransfer ?wh ?d ?w] =>
      destruct (wh_tokenTransfer wh d w) as [[?e|?x] ?w] eqn:?Hcreate
  | |- context [quoteTransfer ?wh ?a ?b ?d ?w] =>
      destruct (quoteTransfer wh a b d w) as [[?e|?q] ?w] eqn:?Hquote
  | |- context [initiateTransfer ?wh ?x ?s ?w] =>
      destruct (initiateTransfer wh x s w) as [[?e|?src] ?w] eqn:?Hinit
  | |- context [fetchAttestation ?wh ?x ?n ?w] =>
      destruct (fetchAttestation wh x n w) as [[?e|?att] ?w] eqn:?Hfetch
  | |- context [completeTransfer ?wh ?x ?s ?w] =>
      destruct (completeTransfer wh x s w) as [[?e|?dst] ?w] eqn:?Hdone
  end.

Ltac open_body :=
  unfold tokenTransfer_body, bind, await, emit, ret, throw, pending;
  cbn beta iota.

Section Body.
Context {W : Type} (wh : Sdk W).
Variable self : Route -> option bool -> M W Event Xfer.

Lemma automatic_details (route : Route) :
  td_automatic (transfer_details route) = is_automatic route.
Proof.
  unfold is_automatic, transfer_details; simpl.
  destruct (delivery route) as [[[] ?]|]; reflexivity.
Qed.

Lemma body_round_trip (route : Route) (roundTrip : option bool) (w : W) :
  tokenTransfer_body wh self route roundTrip w =
  match tokenTransfer_body wh self route None w with
  | (Ok x, w', t) =>
      if truthy roundTrip && negb (is_automatic route) then
        match quote_of t with
        | Some q =>
            match self (second_leg route q) None w' with
            | (r, w'', t') => (r, w'', t ++ t')
            end
        | None => (Ok x, w', t)
        end
      else (Ok x, w', t)
  | other => other
  end.
Proof.
  open_body.
  sdk_call; simpl; [reflexivity|].
  sdk_call; simpl; [reflexivity|].
  destruct (td_automatic (transfer x) && (ta_amount (destinationToken q) <? 0)%Z);
    simpl; [reflexivity|].
  sdk_call; simpl; [reflexivity|].
  destruct (is_automatic route); simpl.
  - rewrite andb_false_r. reflexivity.
  - sdk_call; simpl; [reflexivity|].
    sdk_call; simpl; [reflexivity|].
    rewrite andb_true_r.
    destruct (truthy roundTrip); simpl; [|reflexivity].
    destruct (self (second_leg route q) None w4) as [[r w'] t']. reflexivity.
Qed.

(** A transfer whose [roundTrip] is falsy never reaches the recursive
    call: the function standing for [self] is irrelevant. *)
Lemma body_without_round_trip (self' : Route -> option bool -> M W Event Xfer)
      (route : Route) (roundTrip : option bool) (w : W) :
  truthy roundTrip = false ->
  tokenTransfer_body wh self route roundTrip w =
  tokenTransfer_body wh self' route None w.
Proof.
  intros Hrt. open_body. rewrite Hrt. simpl.
  repeat (sdk_call; simpl; [reflexivity|]).
  destruct (_ && _); simpl; [reflexivity|].
  sdk_call; simpl; [reflexivity|].
  destruct (is_automatic route); simpl; [reflexivity|].
  repeat (sdk_call; simpl; [reflexivity|]).
  reflexivity.
Qed.

(** An automatic transfer returns at line 150, whatever [roundTrip] is. *)
Lemma body_automatic (self' : Route -> option bool -> M W Event Xfer)
      (route : Route) (roundTrip : option bool) (w : W) :
  is_automatic route = true ->
  tokenTransfer_body wh self route roundTrip w =
  tokenTransfer_body wh self' route None w.
Proof.
  intros Hauto. open_body. rewrite Hauto. simpl.
  repeat (sdk_call; simpl; [reflexivity|]).
  destruct (_ && _); simpl; [reflexivity|].
  sdk_call; simpl; reflexivity.
Qed.

End Body.

Section Traces.

Lemma qbs_nil (seen : list Event) : quoted_before_submission seen [].
Proof.
  intros pre x s r post H. destruct pre; discriminate H.
Qed.

Lemma qbs_cons (seen : list Event) (e : Event) (t : list Event) :
  (forall x s r, e = EvInitiateTransfer x s r ->
                 exists src dst q,
                   In (EvQuoteTransfer src dst (transfer x) (inr q)) seen) ->
  quoted_before_submission (seen ++ [e]) t ->
  quoted_before_submission seen (e :: t).
Proof.
  intros Hhead Htail pre x s r post H.
  destruct pre as [|e' pre]; simpl in H.
  - injection H as He Ht. rewrite app_nil_r. eapply Hhead; eauto.
  - injection H as He Ht. subst e'.
    destruct (Htail pre x s r post Ht) as (src & dst & q & Hin).
    exists src, dst, q. rewrite <- app_assoc in Hin. exact Hin.
Qed.

Lemma qbs_tail (seen : list Event) (e : Event) (t : list Event) :
  quoted_before_submission seen (e :: t) ->
  quoted_before_submission (seen ++ [e]) t.
Proof.
  intros H pre x s r post Ht.
  destruct (H (e :: pre) x s r post) as (src & dst & q & Hin).
  - simpl. now rewrite Ht.
  - exists src, dst, q. rewrite <- app_assoc. exact Hin.
Qed.

Lemma qbs_weaken (seen : list Event) (t : list Event) :
  quoted_before_submission [] t -> quoted_before_submission seen t.
Proof.
  intros H pre x s r post Ht.
  destruct (H pre x s r post Ht) as (src & dst & q & Hin).
  exists src, dst, q. apply in_or_app. right. exact Hin.
Qed.

Lemma qbs_app (t1 t2 : list Event) :
  forall seen,
    quoted_before_submission seen t1 ->
    quoted_before_submission [] t2 ->
    quoted_before_submission seen (t1 ++ t2).
Proof.
  induction t1 as [|e t1 IH]; intros seen H1 H2; simpl.
  - now apply qbs_weaken.
  - apply qbs_cons.
    + intros x s r He. subst e.
      destruct (H1 [] x s r t1 eq_refl) as (src & dst & q & Hin).
      rewrite app_nil_r in Hin. eauto.
    + apply IH; [now apply qbs_tail | exact H2].
Qed.

Lemma activations_app (t1 t2 : list Event) :
  activations (t1 ++ t2) = (activations t1 + activations t2)%nat.
Proof.
  unfold activations. now rewrite filter_app, length_app.
Qed.

End Traces.

Ltac split_in H :=
  simpl in H;
  repeat (destruct H as [H|H]; try discriminate H);
  try contradiction.

Ltac qbs_list :=
  repeat (apply qbs_cons;
          [ let He := fresh "He" in
            intros ? ? ? He;
            first [ discriminate He
                  | injection He as -> _ _;
                    do 3 eexists; simpl; eauto 10 ]
          | ]);
  apply qbs_nil.

Section Legs.
Context {W : Type} (wh : Sdk W).
Variable self : Route -> option bool -> M W Event Xfer.

(** One activation on its own: it creates exactly one transfer object, it
    ends, and it quotes before it submits. *)
Lemma leg_shape (route : Route) (w : W) :
  let leg := tokenTransfer_body wh self route None w in
  activations (trace leg) = 1%nat /\
  result leg <> Pending /\
  quoted_before_submission [] (trace leg).
Proof.
  open_body. unfold trace, result.
  repeat (first [ sdk_call
                | match goal with
                  | |- context [if ?b then _ else _] => destruct b
                  end ];
          simpl);
    (repeat split; [discriminate | qbs_list]).
Qed.

(** One activation creates its transfer object from the details of its
    request, and returns no other object. *)
Lemma leg_object (route : Route) (w : W) :
  let leg := tokenTransfer_body wh self route None w in
  exists r,
    filter is_tokenTransfer (trace leg)
    = [EvTokenTransfer (transfer_details route) r] /\
    forall x, result leg = Ok x -> r = inr x.
Proof.
  open_body. unfold trace, result.
  repeat (first [ sdk_call
                | match goal with
                  | |- context [if ?b then _ else _] => destruct b
                  end ];
          simpl);
    (eexists; split; [reflexivity|]; intros y Hy;
     first [discriminate Hy | injection Hy as ->; reflexivity]).
Qed.

Lemma body_quoted_before_submission (route : Route) (roundTrip : option bool)
      (w : W) :
  (forall r rt w0, quoted_before_submission [] (trace (self r rt w0))) ->
  quoted_before_submission []
    (trace (tokenTransfer_body wh self route roundTrip w)).
Proof.
  intros Hself. rewrite body_round_trip.
  pose proof (leg_shape route w) as (_ & _ & H1). cbv zeta in H1.
  destruct (tokenTransfer_body wh self route None w) as [[[x| |] w'] t];
    try exact H1.
  destruct (truthy roundTrip && negb (is_automatic route)); try exact H1.
  destruct (quote_of t) as [q|]; try exact H1.
  specialize (Hself (second_leg route q) None w').
  destruct (self (second_leg route q) None w') as [[r w''] t'].
  now apply qbs_app.
Qed.

End Legs.

Section Recursion.
Context {W : Type} (wh : Sdk W).

(** With [roundTrip] undefined the function is one activation, however
    far the recursion is unfolded. *)
Lemma tokenTransfer_single (depth : nat) (route : Route) (roundTrip : option bool)
      (w : W) :
  truthy roundTrip = false ->
  tokenTransfer wh (S depth) route roundTrip w = tokenTransfer wh 1 route None w.
Proof.
  intros Hrt. simpl. now apply body_without_round_trip.
Qed.

Lemma tokenTransfer_automatic (depth : nat) (route : Route)
      (roundTrip : option bool) (w : W) :
  is_automatic route = true ->
  tokenTransfer wh (S depth) route roundTrip w = tokenTransfer wh 1 route None w.
Proof.
  intros Hauto. simpl. now apply body_automatic.
Qed.

(** A round trip is the first transfer followed by one more activation on
    the request [second_leg], called with [roundTrip] undefined. *)
Lemma tokenTransfer_round_trip (depth : nat) (route : Route)
      (roundTrip : option bool) (w : W) :
  tokenTransfer wh (S (S depth)) route roundTrip w =
  match tokenTransfer wh 1 route None w with
  | (Ok x, w', t) =>
      if truthy roundTrip && negb (is_automatic route) then
        match quote_of t with
        | Some q =>
            match tokenTransfer wh 1 (second_leg route q) None w' with
            | (r, w'', t') => (r, w'', t ++ t')
            end
        | None => (Ok x, w', t)
        end
      else (Ok x, w', t)
  | other => other
  end.
Proof.
  change (tokenTransfer wh (S (S depth)) route roundTrip w)
    with (tokenTransfer_body wh (tokenTransfer wh (S depth)) route roundTrip w).
  rewrite body_round_trip. reflexivity.
Qed.

Lemma tokenTransfer_quoted_before_submission (depth : nat) :
  forall (route : Route) (roundTrip : option bool) (w : W),
    quoted_before_submission [] (trace (tokenTransfer wh depth route roundTrip w)).
Proof.
  induction depth as [|depth IH]; intros route roundTrip w.
  - apply qbs_nil.
  - apply (body_quoted_before_submission wh (tokenTransfer wh depth)). exact IH.
Qed.

Lemma tokenTransfer_activations (depth : nat) (route : Route)
      (roundTrip : option bool) (w : W) :
  let run := tokenTransfer wh (S (S depth)) route roundTrip w in
  (1 <= activations (trace run) <= 2)%nat /\
  result run <> Pending /\
  (truthy roundTrip && negb (is_automatic route) = false ->
   activations (trace run) = 1%nat).
Proof.
  cbv zeta. rewrite tokenTransfer_round_trip.
  pose proof (leg_shape wh (tokenTransfer wh 0) route w) as (H1 & H1' & _).
  change (tokenTransfer_body wh (tokenTransfer wh 0) route None w)
    with (tokenTransfer wh 1 route None w) in H1, H1'.
  destruct (tokenTransfer wh 1 route None w) as [[[x| |] w'] t];
    try (simpl in *; repeat split; try lia; assumption).
  destruct (truthy roundTrip && negb (is_automatic route));
    try (simpl in *; repeat split; try lia; assumption).
  destruct (quote_of t) as [q|];
    try (simpl in *; repeat split; try lia; try assumption; discriminate).
  pose proof (leg_shape wh (tokenTransfer wh 0) (second_leg route q) w')
    as (H2 & H2' & _).
  change (tokenTransfer_body wh (tokenTransfer wh 0) (second_leg route q) None w')
    with (tokenTransfer wh 1 (second_leg route q) None w') in H2, H2'.
  destruct (tokenTransfer wh 1 (second_leg route q) None w') as [[r w''] t'].
  unfold trace, result in *; simpl in *.
  rewrite activations_app.
  repeat split; try lia; try assumption; discriminate.
Qed.

(** An automatic transfer never reaches [completeTransfer]. *)
Lemma automatic_leg_never_completes (route : Route) (w : W) :
  is_automatic route = true ->
  filter is_completeTransfer (trace (tokenTransfer wh 1 route None w)) = [].
Proof.
  intros Hauto. simpl. open_body. unfold trace. rewrite Hauto.
  repeat (first [ sdk_call
                | match goal with
                  | |- context [if ?b then _ else _] => destruct b
                  end ];
          simpl);
    reflexivity.
Qed.

End Recursion.

(** ** Insufficient amount *)

(** C1 (as amended): for an automatic transfer whose quoted destination
    amount is negative, [tokenTransfer] throws the "amount too low" string
    before anything is submitted: the run contains no submission and no
    source transaction id is recorded for any transfer object. *)
Theorem negative_quote_fails_before_submission
        (W : Type) (wh : Sdk W) (depth : nat) (route : Route)
        (roundTrip : option bool) (w : W)
        (src dst : ChainContext) (d : TokenTransferDetails) (q : Quote) :
  is_automatic route = true ->
  In (EvQuoteTransfer src dst d (inr q))
     (trace (tokenTransfer wh depth route roundTrip w)) ->
  ta_amount (destinationToken q) < 0 ->
  result (tokenTransfer wh depth route roundTrip w) = Throw (ThrowString too_low) /\
  filter is_submission (trace (tokenTransfer wh depth route roundTrip w)) = [] /\
  forall x, sourceTxIds x (trace (tokenTransfer wh depth route roundTrip w)) = [].
Proof.
  intros Hauto Hin Hneg.
  destruct depth as [|depth]; [destruct Hin|].
  rewrite tokenTransfer_automatic in * by assumption.
  revert Hin. simpl. open_body. unfold trace, result.
  sdk_call; simpl; [intros Hin; split_in Hin|].
  pose proof (transfer_keeps_automatic wh _ _ Hcreate) as Hkeep.
  rewrite automatic_details, Hauto in Hkeep. rewrite Hkeep.
  sdk_call; simpl; [intros Hin; split_in Hin|].
  destruct (ta_amount (destinationToken q0) <? 0)%Z eqn:Hlt; simpl.
  - intros _. repeat split.
  - apply Z.ltb_ge in Hlt.
    sdk_call; simpl; try rewrite Hauto; simpl;
      intros Hin; split_in Hin; injection Hin as _ _ _ ->; lia.
Qed.

Lemma negative_quote_fails_before_submission_witness :
  is_automatic (demo_route true) = true /\
  result (tokenTransfer (demo_sdk (10 ^ 10)) 2 (demo_route true) (Some true) 0%nat)
  = Throw (ThrowString too_low).
Proof.
  split; [reflexivity|].
  eapply (@negative_quote_fails_before_submission
            nat (demo_sdk (10 ^ 10)) 2 (demo_route true) (Some true) 0%nat).
  - reflexivity.
  - right. left. reflexivity.
  - vm_compute. reflexivity.
Defined.

(** C1 as stated fails: a quote of exactly zero passes the guard of line
    141, and the transfer is submitted. *)
Lemma zero_quote_is_submitted :
  ~ (forall (W : Type) (wh : Sdk W) (depth : nat) (route : Route)
            (roundTrip : option bool) (w : W)
            (src dst : ChainContext) (d : TokenTransferDetails) (q : Quote),
        is_automatic route = true ->
        In (EvQuoteTransfer src dst d (inr q))
           (trace (tokenTransfer wh depth route roundTrip w)) ->
        ta_amount (destinationToken q) <= 0 ->
        result (tokenTransfer wh depth route roundTrip w)
        = Throw (ThrowString too_low) /\
        filter is_submission (trace (tokenTransfer wh depth route roundTrip w))
        = [] /\
        forall x,
          sourceTxIds x (trace (tokenTransfer wh depth route roundTrip w)) = []).
Proof.
  intros H.
  edestruct (H nat (demo_sdk (10 * 10 ^ 8)) 1%nat (demo_route true) None 0%nat)
    as (Hres & _).
  - reflexivity.
  - right. left. reflexivity.
  - vm_compute. discriminate.
  - vm_compute in Hres. discriminate Hres.
Qed.

(** ** Automatic delivery *)




(** ** Quote before submission *)

(** C8: in every run of [tokenTransfer], in either delivery mode and for
    both legs of a round trip, each call of [initiateTransfer] on a
    transfer object comes after a call of [quoteTransfer] that answered
    with a quote for the details of that same object. *)
Theorem quote_precedes_every_submission
        (W : Type) (wh : Sdk W) (depth : nat) (route : Route)
        (roundTrip : option bool) (w : W)
        (before : list Event) (x : Xfer) (s : Signer)
        (r : Thrown + list TxId) (rest : list Event) :
  trace (tokenTransfer wh depth route roundTrip w)
  = before ++ EvInitiateTransfer x s r :: rest ->
  exists src dst q, In (EvQuoteTransfer src dst (transfer x) (inr q)) before.
Proof.
  intros Ht.
  exact (tokenTransfer_quoted_before_submission wh depth route roundTrip w
           before x s r rest Ht).
Qed.

Lemma quote_precedes_every_submission_witness :
  exists src dst q,
    In (EvQuoteTransfer src dst (transfer_details (demo_route false)) (inr q))
       (firstn 4 (trace (tokenTransfer (demo_sdk 12) 2 (demo_route false)
                                       (Some true) 0%nat))).
Proof.
  eapply (@quote_precedes_every_submission
            nat (demo_sdk 12) 2 (demo_route false) (Some true) 0%nat
            _ {| xfer_id := 0; transfer := transfer_details (demo_route false) |}).
  reflexivity.
Defined.

(** ** Round trips *)

(** C2: if the first transfer, run on its own, goes through
    [completeTransfer] and returns, then with [roundTrip = true] the
    function continues with one recursive call whose request is
    [second_leg]: token and amount are those of the first leg's quote,
    source and destination (chain, signer and address) are exchanged.
    With a falsy [roundTrip] there is no further transfer: the run is
    the first transfer, one activation, and its object is returned. *)
Theorem round_trip_second_leg_request
        (W : Type) (wh : Sdk W) (depth : nat) (route : Route) (w w' : W)
        (x : Xfer) (t : list Event) (q : Quote) (s : Signer)
        (ids : list TxId) :
  tokenTransfer wh 1 route None w = (Ok x, w', t) ->
  In (EvCompleteTransfer x s (inr ids)) t ->
  quote_of t = Some q ->
  tokenTransfer wh (S (S depth)) route (Some true) w =
  (match tokenTransfer wh (S depth) (second_leg route q) None w' with
   | (r, w'', t') => (r, w'', t ++ t')
   end) /\
  token (second_leg route q) = ta_token (destinationToken q) /\
  amount (second_leg route q) = ta_amount (destinationToken q) /\
  source (second_leg route q) = destination route /\
  destination (second_leg route q) = source route /\
  (forall roundTrip,
      truthy roundTrip = false ->
      tokenTransfer wh (S depth) route roundTrip w = (Ok x, w', t) /\
      activations t = 1%nat).
Proof.
  intros Hleg Hdone Hq.
  assert (Hmanual : is_automatic route = false).
  { destruct (is_automatic route) eqn:Hauto; [|reflexivity].
    pose proof (automatic_leg_never_completes wh route w Hauto) as Hnone.
    rewrite Hleg in Hnone. unfold trace in Hnone; simpl in Hnone.
    assert (Hin : In (EvCompleteTransfer x s (inr ids))
                     (filter is_completeTransfer t))
      by (apply filter_In; split; [exact Hdone | reflexivity]).
    rewrite Hnone in Hin. destruct Hin. }
  split.
  { rewrite tokenTransfer_round_trip, Hleg. cbv beta iota.
    rewrite Hmanual. cbn [truthy andb negb]. rewrite Hq.
    now rewrite (tokenTransfer_single wh depth (second_leg route q) None w'). }
  do 4 (split; [reflexivity|]).
  intros roundTrip Hrt.
  rewrite tokenTransfer_single by assumption.
  split; [exact Hleg|].
  pose proof (leg_shape wh (tokenTransfer wh 0) route w) as (Hone & _).
  change (tokenTransfer_body wh (tokenTransfer wh 0) route None w)
    with (tokenTransfer wh 1 route None w) in Hone.
  now rewrite Hleg in Hone.
Qed.

Lemma round_trip_second_leg_request_witness :
  amount (second_leg (demo_route false)
                     (demo_quote 12 solana (transfer_details (demo_route false))))
  = 10 * 10 ^ 8 /\
  activations
    (trace (tokenTransfer (demo_sdk 12) 2 (demo_route false) (Some true) 0%nat))
  = 2%nat.
Proof.
  edestruct (@round_trip_second_leg_request
               nat (demo_sdk 12) 0 (demo_route false) 0%nat)
    as (Hrun & _ & Hamount & _).
  - reflexivity.
  - do 10 right. left. reflexivity.
  - reflexivity.
  - split.
    + etransitivity; [exact Hamount | reflexivity].
    + etransitivity; [exact (f_equal (fun r => activations (trace r)) Hrun)|].
      reflexivity.
Defined.

(** C5: whatever the request and [roundTrip], a run is the first
    transfer, followed at most by one activation on [second_leg] that is
    called with [roundTrip] undefined; an activation with [roundTrip]
    undefined never calls the function again.  So unfolding the
    recursion twice is always enough, the run ends, and it consists of
    one or two activations. *)
Theorem round_trip_is_at_most_one_extra_hop
        (W : Type) (wh : Sdk W) (depth : nat) (route : Route)
        (roundTrip : option bool) (w : W) :
  tokenTransfer wh (S (S depth)) route roundTrip w =
  (match tokenTransfer wh 1 route None w with
   | (Ok x, w', t) =>
       if truthy roundTrip && negb (is_automatic route) then
         match quote_of t with
         | Some q =>
             match tokenTransfer wh 1 (second_leg route q) None w' with
             | (r, w'', t') => (r, w'', t ++ t')
             end
         | None => (Ok x, w', t)
         end
       else (Ok x, w', t)
   | other => other
   end) /\
  (forall self route' w',
      tokenTransfer_body wh self route' None w' =
      tokenTransfer wh 1 route' None w' /\
      activations (trace (tokenTransfer wh 1 route' None w')) = 1%nat) /\
  tokenTransfer wh (S (S depth)) route roundTrip w =
  tokenTransfer wh 2 route roundTrip w /\
  result (tokenTransfer wh (S (S depth)) route roundTrip w) <> Pending /\
  (1 <= activations (trace (tokenTransfer wh (S (S depth)) route roundTrip w))
   <= 2)%nat.
Proof.
  split; [apply tokenTransfer_round_trip|].
  split.
  { intros self route' w'. split; [reflexivity|].
    apply (leg_shape wh (tokenTransfer wh 0) route' w'). }
  split; [now rewrite !tokenTransfer_round_trip|].
  pose proof (tokenTransfer_activations wh depth route roundTrip w)
    as (Hcount & Hends & _).
  split; assumption.
Qed.

(** C9: a run with a second activation is the first transfer followed
    by one activation on the request [second_leg route q], [q] being the
    quote of the first leg; these are the two transfer objects of the
    run, each created from the details of its request.  That
    request has the [delivery] and the [payload] of the first one (only
    [token], [amount], [source] and [destination] differ), so the second
    transfer object is created with the same delivery flag, native gas
    and payload as the first.  The first request is not automatic, since
    an automatic transfer returns before the round-trip branch, and so
    the second leg is manual as well. *)
Theorem second_leg_keeps_delivery_and_payload
        (W : Type) (wh : Sdk W) (depth : nat) (route : Route)
        (roundTrip : option bool) (w : W) :
  (1 < activations (trace (tokenTransfer wh depth route roundTrip w)))%nat ->
  exists x w' t q r2,
    tokenTransfer wh 1 route None w = (Ok x, w', t) /\
    quote_of t = Some q /\
    tokenTransfer wh depth route roundTrip w =
    (match tokenTransfer wh 1 (second_leg route q) None w' with
     | (r, w'', t') => (r, w'', t ++ t')
     end) /\
    filter is_tokenTransfer (trace (tokenTransfer wh depth route roundTrip w))
    = [EvTokenTransfer (transfer_details route) (inr x);
       EvTokenTransfer (transfer_details (second_leg route q)) r2] /\
    delivery (second_leg route q) = delivery route /\
    payload (second_leg route q) = payload route /\
    td_automatic (transfer_details (second_leg route q))
    = td_automatic (transfer_details route) /\
    td_nativeGas (transfer_details (second_leg route q))
    = td_nativeGas (transfer_details route) /\
    td_payload (transfer_details (second_leg route q))
    = td_payload (transfer_details route) /\
    is_automatic route = false /\
    is_automatic (second_leg route q) = false.
Proof.
  intros Hmany.
  destruct depth as [|[|depth]].
  - simpl in Hmany. inversion Hmany.
  - exfalso. revert Hmany.
    change (tokenTransfer wh 1 route roundTrip w)
      with (tokenTransfer_body wh (tokenTransfer wh 0) route roundTrip w).
    rewrite body_round_trip.
    pose proof (leg_shape wh (tokenTransfer wh 0) route w) as (Hone & _).
    destruct (tokenTransfer_body wh (tokenTransfer wh 0) route None w)
      as [[[x| |] w'] t]; unfold trace in *; simpl in *;
      try (rewrite Hone; lia).
    destruct (truthy roundTrip && negb (is_automatic route));
      try (simpl; rewrite Hone; lia).
    destruct (quote_of t); simpl; rewrite ?app_nil_r, Hone; lia.
  - rewrite tokenTransfer_round_trip in *.
    pose proof (leg_shape wh (tokenTransfer wh 0) route w) as (Hone & _).
    pose proof (leg_object wh (tokenTransfer wh 0) route w) as (r1 & Hobj & Hret).
    change (tokenTransfer_body wh (tokenTransfer wh 0) route None w)
      with (tokenTransfer wh 1 route None w) in Hone, Hobj, Hret.
    destruct (tokenTransfer wh 1 route None w) as [[[x| |] w'] t];
      unfold trace, result in Hone, Hobj, Hret, Hmany;
      cbn [fst snd] in Hone, Hobj, Hret, Hmany;
      try (exfalso; lia).
    destruct (truthy roundTrip && negb (is_automatic route)) eqn:Hbranch;
      [|exfalso; cbn [snd] in Hmany; lia].
    destruct (quote_of t) as [q|] eqn:Hq;
      [|exfalso; cbn [snd] in Hmany; lia].
    clear Hmany.
    pose proof (leg_object wh (tokenTransfer wh 0) (second_leg route q) w')
      as (r2 & Hobj2 & _).
    change (tokenTransfer_body wh (tokenTransfer wh 0) (second_leg route q) None w')
      with (tokenTransfer wh 1 (second_leg route q) None w') in Hobj2.
    apply andb_prop in Hbranch as (_ & Hmanual).
    apply negb_true_iff in Hmanual.
    exists x, w', t, q, r2.
    split; [reflexivity|].
    split; [exact Hq|].
    split; [reflexivity|].
    split.
    { destruct (tokenTransfer wh 1 (second_leg route q) None w') as [[r w''] t'].
      unfold trace in *; cbn [snd] in *.
      rewrite filter_app, Hobj, Hobj2, (Hret x eq_refl). reflexivity. }
    do 5 (split; [reflexivity|]).
    split; exact Hmanual.
Qed.

Lemma second_leg_keeps_delivery_and_payload_witness :
  (1 < activations
         (trace (tokenTransfer (demo_sdk 12) 2 (demo_route false)
                               (Some true) 0%nat)))%nat /\
  exists x w' t q r2,
    tokenTransfer (demo_sdk 12) 1 (demo_route false) None 0%nat = (Ok x, w', t) /\
    quote_of t = Some q /\
    tokenTransfer (demo_sdk 12) 2 (demo_route false) (Some true) 0%nat =
    (match tokenTransfer (demo_sdk 12) 1 (second_leg (demo_route false) q) None w'
     with
     | (r, w'', t') => (r, w'', t ++ t')
     end) /\
    filter is_tokenTransfer
      (trace (tokenTransfer (demo_sdk 12) 2 (demo_route false) (Some true) 0%nat))
    = [EvTokenTransfer (transfer_details (demo_route false)) (inr x);
       EvTokenTransfer (transfer_details (second_leg (demo_route false) q)) r2] /\
    delivery (second_leg (demo_route false) q) = delivery (demo_route false) /\
    payload (second_leg (demo_route false) q) = payload (demo_route false) /\
    td_automatic (transfer_details (second_leg (demo_route false) q))
    = td_automatic (transfer_details (demo_route false)) /\
    td_nativeGas (transfer_details (second_leg (demo_route false) q))
    = td_nativeGas (transfer_details (demo_route false)) /\
    td_payload (transfer_details (second_leg (demo_route false) q))
    = td_payload (transfer_details (demo_route false)) /\
    is_automatic (demo_route false) = false /\
    is_automatic (second_leg (demo_route false) q) = false.
Proof.
  split; [vm_compute; lia|].
  apply (@second_leg_keeps_delivery_and_payload
           nat (demo_sdk 12) 2%nat (demo_route false) (Some true) 0%nat).
  vm_compute; lia.
Defined.

End TransferProperties.

(** * Properties of the attestation script *)

Module AttestationProperties.
Import CreateWrapped.

Section Polling.
Context {W : Type} (wh : Sdk W).
Variable tbDest : TokenBridge.

(** One iteration of the loop of [waitForIt]. *)
Lemma waitForIt_step (rounds : nat) (w : W) :
  waitForIt wh tbDest (S rounds) w =
  match getWrappedAsset wh tbDest tokenId w with
  | (inr a, w1) =>
      (Ok {| w_chain := chain destChain; w_address := a |}, w1,
       [EvGetWrappedAsset tbDest tokenId (inr a)])
  | (inl e, w1) =>
      match waitForIt wh tbDest rounds (setTimeout wh 2000 w1) with
      | (r, w2, t) => (r, w2, failed_round tbDest e ++ t)
      end
  end.
Proof.
  cbn [waitForIt].
  unfold bind, try_catch, await, emit, ret, delay.
  destruct (getWrappedAsset wh tbDest tokenId w) as [[e|a] w1]; simpl.
  - destruct (waitForIt wh tbDest rounds (setTimeout wh 2000 w1))
      as [[r w2] t].
    reflexivity.
  - reflexivity.
Qed.

(** What a run of [waitForIt] looks like: failed iterations, then either
    the successful lookup whose address is returned, or, when the [rounds]
    iterations followed by the model were all unsuccessful, a loop that is
    still running. *)
Lemma waitForIt_shape (rounds : nat) :
  forall w : W,
  exists errs : list Thrown,
    (result (waitForIt wh tbDest rounds w) = Pending /\
     List.length errs = rounds /\
     trace (waitForIt wh tbDest rounds w) = flat_map (failed_round tbDest) errs /\
     after_failures wh tbDest rounds w = Some (final (waitForIt wh tbDest rounds w)))
    \/
    (exists (a : string) (wk : W),
        result (waitForIt wh tbDest rounds w)
        = Ok {| w_chain := chain destChain; w_address := a |} /\
        (List.length errs < rounds)%nat /\
        trace (waitForIt wh tbDest rounds w)
        = flat_map (failed_round tbDest) errs
          ++ [EvGetWrappedAsset tbDest tokenId (inr a)] /\
        after_failures wh tbDest (List.length errs) w = Some wk /\
        getWrappedAsset wh tbDest tokenId wk
        = (inr a, final (waitForIt wh tbDest rounds w))).
Proof.
  induction rounds as [|rounds IH]; intros w.
  - exists []. left. repeat split.
  - rewrite waitForIt_step. cbn [after_failures].
    destruct (getWrappedAsset wh tbDest tokenId w) as [[e|a] w1] eqn:Hlook.
    + destruct (IH (setTimeout wh 2000 w1)) as (errs & [Hp | Hr]).
      * destruct Hp as (Hres & Hlen & Htr & Haf).
        exists (e :: errs). left.
        destruct (waitForIt wh tbDest rounds (setTimeout wh 2000 w1))
          as [[r w2] t].
        unfold result, trace, final in *; simpl in *.
        subst. repeat split; assumption.
      * destruct Hr as (a & wk & Hres & Hlen & Htr & Haf & Hlast).
        exists (e :: errs). right. exists a, wk.
        destruct (waitForIt wh tbDest rounds (setTimeout wh 2000 w1))
          as [[r w2] t].
        unfold result, trace, final in *; simpl in *.
        rewrite Hlook. subst.
        repeat split; try assumption. lia.
    + exists []. right. exists a, w.
      unfold result, trace, final; simpl. repeat split; try assumption. lia.
Qed.

(** As long as the lookups fail the loop goes on. *)
Lemma waitForIt_pending (rounds : nat) :
  forall w w' : W,
    after_failures wh tbDest rounds w = Some w' ->
    result (waitForIt wh tbDest rounds w) = Pending.
Proof.
  induction rounds as [|rounds IH]; intros w w' Haf.
  - reflexivity.
  - rewrite waitForIt_step. cbn [after_failures] in Haf.
    destruct (getWrappedAsset wh tbDest tokenId w) as [[e|a] w1];
      [|discriminate Haf].
    specialize (IH _ _ Haf).
    destruct (waitForIt wh tbDest rounds (setTimeout wh 2000 w1))
      as [[r w2] t].
    exact IH.
Qed.

(** The loop returns as soon as a lookup succeeds. *)
Lemma waitForIt_returns (k : nat) :
  forall (rounds : nat) (w wk w' : W) (a : string),
    after_failures wh tbDest k w = Some wk ->
    getWrappedAsset wh tbDest tokenId wk = (inr a, w') ->
    (k < rounds)%nat ->
    result (waitForIt wh tbDest rounds w)
    = Ok {| w_chain := chain destChain; w_address := a |} /\
    final (waitForIt wh tbDest rounds w) = w'.
Proof.
  induction k as [|k IH]; intros rounds w wk w' a Haf Hok Hlt;
    (destruct rounds as [|rounds]; [lia|]);
    rewrite waitForIt_step; cbn [after_failures] in Haf.
  - injection Haf as ->. rewrite Hok. split; reflexivity.
  - destruct (getWrappedAsset wh tbDest tokenId w) as [[e|a'] w1];
      [|discriminate Haf].
    assert (Hlt' : (k < rounds)%nat) by lia.
    specialize (IH rounds _ _ _ _ Haf Hok Hlt').
    destruct (waitForIt wh tbDest rounds (setTimeout wh 2000 w1))
      as [[r w2] t].
    exact IH.
Qed.

(** The loop does nothing but look up, print and wait. *)
Lemma waitForIt_only_polls (rounds : nat) (w : W) (e : Event) :
  In e (trace (waitForIt wh tbDest rounds w)) -> is_polling e = true.
Proof.
  intros Hin.
  assert (Hround : forall errs,
             In e (flat_map (failed_round tbDest) errs) -> is_polling e = true).
  { intros errs H. apply in_flat_map in H. destruct H as (err & _ & H).
    unfold failed_round in H. simpl in H.
    repeat (destruct H as [H|H]; [subst e; reflexivity|]). destruct H. }
  destruct (waitForIt_shape rounds w)
    as (errs & [(_ & _ & Htr & _) | (a & wk & _ & _ & Htr & _)]);
    rewrite Htr in Hin.
  - eauto.
  - apply in_app_or in Hin. destruct Hin as [Hin|Hin]; [eauto|].
    simpl in Hin. destruct Hin as [<-|[]]. reflexivity.
Qed.

Lemma waitForIt_filter (p : Event -> bool) (rounds : nat) (w : W) :
  (forall e, is_polling e = true -> p e = false) ->
  filter p (trace (waitForIt wh tbDest rounds w)) = [].
Proof.
  intros Hp.
  destruct (filter p (trace (waitForIt wh tbDest rounds w))) as [|e l] eqn:Hf;
    [reflexivity|].
  assert (Hin : In e (filter p (trace (waitForIt wh tbDest rounds w))))
    by (rewrite Hf; left; reflexivity).
  apply filter_In in Hin. destruct Hin as (Hin & Hpe).
  apply waitForIt_only_polls in Hin. rewrite (Hp e Hin) in Hpe.
  discriminate Hpe.
Qed.

End Polling.

(** ** The polling loop *)

(** C6: [waitForIt] looks the wrapped asset up again and again, waiting
    two seconds after every failed lookup.  A run followed for [rounds]
    iterations is a sequence of failed iterations ended by the successful
    lookup whose chain and address are returned, or it is still looping
    after [rounds] failures; it never throws.  However many lookups fail
    in a row, the loop is still running afterwards (nothing in it counts
    attempts or checks a deadline), and it returns at the first lookup
    that succeeds. *)
Theorem waitForIt_polls_until_registered
        (W : Type) (wh : Sdk W) (tbDest : TokenBridge) (rounds : nat) (w : W) :
  (exists errs : list Thrown,
      (result (waitForIt wh tbDest rounds w) = Pending /\
       List.length errs = rounds /\
       trace (waitForIt wh tbDest rounds w)
       = flat_map (failed_round tbDest) errs /\
       after_failures wh tbDest rounds w
       = Some (final (waitForIt wh tbDest rounds w)))
      \/
      (exists (a : string) (wk : W),
          result (waitForIt wh tbDest rounds w)
          = Ok {| w_chain := chain destChain; w_address := a |} /\
          (List.length errs < rounds)%nat /\
          trace (waitForIt wh tbDest rounds w)
          = flat_map (failed_round tbDest) errs
            ++ [EvGetWrappedAsset tbDest tokenId (inr a)] /\
          after_failures wh tbDest (List.length errs) w = Some wk /\
          getWrappedAsset wh tbDest tokenId wk
          = (inr a, final (waitForIt wh tbDest rounds w)))) /\
  (forall (n : nat) (w' : W),
      after_failures wh tbDest n w = Some w' ->
      result (waitForIt wh tbDest n w) = Pending) /\
  (forall (k : nat) (wk w' : W) (a : string),
      after_failures wh tbDest k w = Some wk ->
      getWrappedAsset wh tbDest tokenId wk = (inr a, w') ->
      (k < rounds)%nat ->
      result (waitForIt wh tbDest rounds w)
      = Ok {| w_chain := chain destChain; w_address := a |} /\
      final (waitForIt wh tbDest rounds w) = w') /\
  (forall ms : Z,
      In (EvSetTimeout ms) (trace (waitForIt wh tbDest rounds w)) -> ms = 2000).
Proof.
  split; [apply waitForIt_shape|].
  split; [intros n w'; apply waitForIt_pending|].
  split; [intros k wk w' a; apply waitForIt_returns|].
  intros ms Hin.
  assert (Hrounds : forall errs,
             In (EvSetTimeout ms) (flat_map (failed_round tbDest) errs) ->
             ms = 2000).
  { intros errs H. apply in_flat_map in H. destruct H as (e & _ & H).
    unfold failed_round in H. simpl in H.
    repeat (destruct H as [H|H]; try discriminate H); try contradiction.
    now injection H. }
  destruct (waitForIt_shape wh tbDest rounds w)
    as (errs & [(_ & _ & Htr & _) | (a & wk & _ & _ & Htr & _)]);
    rewrite Htr in Hin.
  - eauto.
  - apply in_app_or in Hin. destruct Hin as [Hin|Hin]; [eauto|].
    simpl in Hin. destruct Hin as [Hin|[]]. discriminate Hin.
Qed.

Lemma waitForIt_polls_until_registered_witness :
  after_failures (demo_sdk (fresh_token None)) {| tb_chain := "Solana" |} 5 0%nat
  = Some 5%nat /\
  result (waitForIt (demo_sdk (fresh_token None)) {| tb_chain := "Solana" |}
                    5 0%nat)
  = Pending /\
  result (waitForIt (demo_sdk (fresh_token (Some 3%nat)))
                    {| tb_chain := "Solana" |} 5 0%nat)
  = Ok {| w_chain := "Solana"; w_address := "wrapped-address" |}.
Proof.
  split; [reflexivity|]. split.
  - destruct (@waitForIt_polls_until_registered
                nat (demo_sdk (fresh_token None)) {| tb_chain := "Solana" |}
                5 0%nat) as (_ & Hpending & _).
    apply (Hpending 5%nat 5%nat). reflexivity.
  - destruct (@waitForIt_polls_until_registered
                nat (demo_sdk (fresh_token (Some 3%nat)))
                {| tb_chain := "Solana" |} 5 0%nat) as (_ & _ & Hreturns & _).
    apply (Hreturns 3%nat 3%nat 4%nat "wrapped-address");
      [reflexivity | reflexivity | lia].
Defined.

Ltac cw_call :=
  match goal with
  | |- context [wormhole ?wh ?n ?p ?w] =>
      destruct (wormhole wh n p w) as [[?e|[]] ?w] eqn:?Hwormhole
  | |- context [getSigner ?wh ?c ?g ?w] =>
      destruct (getSigner wh c g w) as [[?e|?stuff] ?w] eqn:?Hsigner
  | |- context [getTokenBridge ?wh ?c ?w] =>
      destruct (getTokenBridge wh c w) as [[?e|?tb] ?w] eqn:?Hbridge
  | |- context [getWrappedAsset ?wh ?tb ?t ?w] =>
      destruct (getWrappedAsset wh tb t w) as [[?e|?wrapped] ?w] eqn:?Hwrapped
  | |- context [signSendWait ?wh ?c ?t ?s ?w] =>
      destruct (signSendWait wh c t s w) as [[?e|[|?tx ?txs]] ?w] eqn:?Hsent
  | |- context [parseTransaction ?wh ?c ?i ?w] =>
      destruct (parseTransaction wh c i w) as [[?e|?msgs] ?w] eqn:?Hparsed
  | |- context [getVaa ?wh ?i ?k ?t ?w] =>
      destruct (getVaa wh i k t w) as [[?e|[?vaa|]] ?w] eqn:?Hvaa
  | |- context [waitForIt ?wh ?tb ?n ?w] =>
      destruct (waitForIt wh tb n w) as [[[?found| |] ?w] ?polled] eqn:?Hpoll
  | |- context [parseAddress ?wh ?c ?a] =>
      destruct (parseAddress wh c a) as [?e|?payer] eqn:?Hpayer
  end.

Ltac open_script :=
  unfold main, createWrapped, bind, try_catch, await, emit, ret, throw, call;
  cbn beta iota.

Ltac walk_script := open_script; repeat (cw_call; simpl).

(** ** Tokens that are already registered *)

(** C4: if the first wrapped-asset lookup of the script resolves, the
    script prints that the token is already wrapped, returns the chain
    and the address found, and ends there: [createAttestation] is never
    called and nothing is handed to [signSendWait]. *)
Theorem already_wrapped_skips_attestation
        (W : Type) (wh : Sdk W) (rounds : nat) (w : W)
        (tb : TokenBridge) (tok : TokenId) (wrapped : string) :
  hd_error (filter is_getWrappedAsset (trace (createWrapped wh rounds w)))
  = Some (EvGetWrappedAsset tb tok (inr wrapped)) ->
  result (createWrapped wh rounds w)
  = Ok (Some {| w_chain := chain destChain; w_address := wrapped |}) /\
  tok = tokenId /\
  (exists before,
      trace (createWrapped wh rounds w)
      = before
        ++ [EvGetWrappedAsset tb tokenId (inr wrapped);
            EvConsoleLog
              [LStr "Token already wrapped on Solana. Skipping attestation."]]) /\
  filter is_createAttestation (trace (createWrapped wh rounds w)) = [] /\
  filter is_signSendWait (trace (createWrapped wh rounds w)) = [].
Proof.
  unfold trace, result. walk_script;
    intros Hfirst; try discriminate Hfirst.
  injection Hfirst as -> -> ->.
  repeat split.
  eexists [_; _; _; _]. reflexivity.
Qed.

Lemma already_wrapped_skips_attestation_witness :
  hd_error
    (filter is_getWrappedAsset
       (trace (createWrapped (demo_sdk (fresh_token (Some 0%nat))) 3 0%nat)))
  = Some (EvGetWrappedAsset {| tb_chain := "Solana" |} tokenId
                            (inr "wrapped-address")) /\
  result (createWrapped (demo_sdk (fresh_token (Some 0%nat))) 3 0%nat)
  = Ok (Some {| w_chain := "Solana"; w_address := "wrapped-address" |}).
Proof.
  split; [reflexivity|].
  eapply (@already_wrapped_skips_attestation
            nat (demo_sdk (fresh_token (Some 0%nat))) 3 0%nat).
  reflexivity.
Defined.

(** ** The signed attestation *)

Ltac find_in := simpl; solve [repeat first [left; reflexivity | right]].

(** Facts about the events of the polling loop at the end of a run. *)
Ltac polled_facts :=
  match goal with
  | Hpoll : waitForIt ?wh ?tb ?n ?w = (_, _, ?polled) |- _ =>
      let Hvaa := fresh "Hvaa" in
      let Hparse := fresh "Hparse" in
      let Hsend := fresh "Hsend" in
      let Hall := fresh "Hall" in
      pose proof (waitForIt_filter wh tb is_getVaa n w
                    ltac:(intros [] ?; (reflexivity || discriminate))) as Hvaa;
      pose proof (waitForIt_filter wh tb is_parseTransaction n w
                    ltac:(intros [] ?; (reflexivity || discriminate))) as Hparse;
      pose proof (waitForIt_filter wh tb is_signSendWait n w
                    ltac:(intros [] ?; (reflexivity || discriminate))) as Hsend;
      pose proof (fun e => @waitForIt_only_polls _ wh tb n w e) as Hall;
      rewrite Hpoll in Hvaa, Hparse, Hsend, Hall;
      unfold trace in Hvaa, Hparse, Hsend, Hall;
      simpl in Hvaa, Hparse, Hsend, Hall
  end.

(** Splits [H : In e t] along a trace that may end with the events of the
    polling loop, which are of other kinds than [e]. *)
Ltac split_trace H :=
  simpl in H;
  repeat (destruct H as [H|H]; try discriminate H);
  try contradiction;
  try (apply in_app_or in H; destruct H as [H|H];
       [ match goal with
         | Hall : forall e, In e _ -> is_polling e = true |- _ =>
             apply Hall in H; discriminate H
         end
       | simpl in H;
         repeat (destruct H as [H|H]; try discriminate H);
         try contradiction ]);
  try match goal with
      | Hall : forall e, In e _ -> is_polling e = true |- _ =>
          apply Hall in H; discriminate H
      end.

Ltac count_filter :=
  simpl; rewrite ?filter_app;
  repeat match goal with
         | H : filter _ _ = [] |- _ => try rewrite H; clear H
         end;
  reflexivity.

(** C7: the only call of [getVaa] in a run asks for the payload type
    "TokenBridge:AttestMeta" (the AttestMeta payload of the token bridge)
    with a timeout of 25 minutes, and its message id is the first message
    parsed from the first transaction id returned when the attestation was
    submitted; that transaction is the only one parsed.  If [getVaa]
    answers [null], the script throws the error "VAA not found after
    retries exhausted..." at once: the lookup is the last event of the
    run (no second lookup, no submission), and the top-level handler
    prints the error. *)
Theorem signed_attestation_lookup
        (W : Type) (wh : Sdk W) (rounds : nat) (w : W)
        (id : option MessageId) (kind : string) (tmo : Z)
        (r : Thrown + option VAA) :
  In (EvGetVaa id kind tmo r) (trace (createWrapped wh rounds w)) ->
  kind = payloadLiteral "TokenBridge" "AttestMeta" /\
  tmo = 1500000 /\
  (exists tb payer signer tx txs msgs,
      In (EvSignSendWait origChain
            (CreateAttestationTxns tb (tok_address tokenId) payer) signer
            (inr (tx :: txs)))
         (trace (createWrapped wh rounds w)) /\
      In (EvParseTransaction origChain (txid tx) (inr msgs))
         (trace (createWrapped wh rounds w)) /\
      id = hd_error msgs) /\
  List.length (filter is_parseTransaction (trace (createWrapped wh rounds w)))
  = 1%nat /\
  List.length (filter is_getVaa (trace (createWrapped wh rounds w))) = 1%nat /\
  (r = inr None ->
   result (createWrapped wh rounds w) = Throw (ThrowError vaa_not_found) /\
   (exists before,
       trace (createWrapped wh rounds w) = before ++ [EvGetVaa id kind tmo r]) /\
   result (main wh rounds w) = Ok tt /\
   trace (main wh rounds w)
   = trace (createWrapped wh rounds w)
     ++ [EvConsoleError [LThrown (ThrowError vaa_not_found)]]).
Proof.
  unfold trace, result. walk_script; intros Hin; try polled_facts;
    split_trace Hin.
  all: injection Hin as <- <- <- <-.
  all: split; [reflexivity|].
  all: split; [reflexivity|].
  all: split; [do 6 eexists; split; [find_in | split; [find_in | reflexivity]]|].
  all: split; [count_filter|].
  all: split; [count_filter|].
  all: intros Hr; try discriminate Hr.
  repeat split.
  eexists [_; _; _; _; _; _; _; _; _; _; _; _; _; _]. reflexivity.
Qed.


Lemma signed_attestation_lookup_witness :
  In (EvGetVaa (Some demo_msg) attest_meta timeout (inr None))
     (trace (createWrapped (demo_sdk never_signed) 3 0%nat)) /\
  result (createWrapped (demo_sdk never_signed) 3 0%nat)
  = Throw (ThrowError vaa_not_found).
Proof.
  assert (Hin : In (EvGetVaa (Some demo_msg) attest_meta timeout (inr None))
                   (trace (createWrapped (demo_sdk never_signed) 3 0%nat)))
    by find_in.
  split; [exact Hin|].
  destruct (@signed_attestation_lookup
              nat (demo_sdk never_signed) 3 0%nat _ _ _ _ Hin)
    as (_ & _ & _ & _ & _ & Hnone).
  apply Hnone. reflexivity.
Defined.

(** ** Reading the first element *)



End AttestationProperties.

(** * Further properties of [tokenTransfer] *)

Module TransferExtras.
Import TokenTransferPayload TransferTrace TransferProperties.

Section Ordering.

Lemma requirement_mono (e : Event) (l l' : list Event) :
  (forall x, In x l -> In x l') ->
  phase_requirement e l -> phase_requirement e l'.
Proof.
  intros Hsub. destruct e; simpl; try tauto.
  - intros (s0 & ids & H). eauto.
  - intros (att & H). eauto.
Qed.

Lemma ordered_nil (seen : list Event) : ordered seen [].
Proof. intros pre e post H. destruct pre; discriminate H. Qed.

Lemma ordered_cons (seen : list Event) (e : Event) (t : list Event) :
  phase_requirement e seen ->
  ordered (seen ++ [e]) t ->
  ordered seen (e :: t).
Proof.
  intros Hhead Htail pre e' post H.
  destruct pre as [|e0 pre]; simpl in H; injection H as He Ht.
  - subst e'. now rewrite app_nil_r.
  - subst e0. specialize (Htail pre e' post Ht).
    now rewrite <- app_assoc in Htail.
Qed.

Lemma ordered_tail (seen : list Event) (e : Event) (t : list Event) :
  ordered seen (e :: t) -> ordered (seen ++ [e]) t.
Proof.
  intros H pre e' post Ht.
  specialize (H (e :: pre) e' post). rewrite <- app_assoc. apply H.
  simpl. now rewrite Ht.
Qed.

Lemma ordered_weaken (seen : list Event) (t : list Event) :
  ordered [] t -> ordered seen t.
Proof.
  intros H pre e post Ht.
  eapply requirement_mono; [|exact (H pre e post Ht)].
  intros x Hx. apply in_or_app. right. exact Hx.
Qed.

Lemma ordered_app (t1 t2 : list Event) :
  forall seen,
    ordered seen t1 -> ordered [] t2 -> ordered seen (t1 ++ t2).
Proof.
  induction t1 as [|e t1 IH]; intros seen H1 H2; simpl.
  - now apply ordered_weaken.
  - apply ordered_cons.
    + specialize (H1 [] e t1 eq_refl). now rewrite app_nil_r in H1.
    + apply IH; [now apply ordered_tail | exact H2].
Qed.

Lemma fail_stop_app (t t' : list Event) (r : Res Xfer) :
  clean t = true -> fail_stop t' r -> fail_stop (t ++ t') r.
Proof.
  intros Ht [Hc | (pre & ev & err & -> & Hpre & Hev & ->)].
  - left. unfold clean in *. rewrite forallb_app, Ht, Hc. reflexivity.
  - right. exists (t ++ pre), ev, err. repeat split; try assumption.
    + now rewrite app_assoc.
    + unfold clean in *. rewrite forallb_app, Ht, Hpre. reflexivity.
Qed.

Lemma transfer_fail_stop_split (t : list Event) (r : Res Xfer) :
  fail_stop t r ->
  forall pre ev post err,
    t = pre ++ ev :: post -> rejection ev = Some err ->
    post = [] /\ r = Throw err.
Proof.
  intros [Hc | (pre0 & ev0 & err0 & -> & Hpre & Hev & ->)] pre ev post err Ht Hrej.
  - exfalso. subst t. unfold clean in Hc.
    rewrite forallb_app in Hc. apply andb_prop in Hc. destruct Hc as [_ Hc].
    simpl in Hc. rewrite Hrej in Hc. discriminate Hc.
  - destruct post as [|p post].
    + apply app_inj_tail in Ht. destruct Ht as [_ ->].
      rewrite Hev in Hrej. injection Hrej as ->. split; reflexivity.
    + exfalso.
      assert (Hin : In ev pre0).
      { assert (Hne : p :: post <> []) by discriminate.
        rewrite (app_removelast_last ev Hne) in Ht.
        rewrite app_comm_cons, app_assoc in Ht.
        apply app_inj_tail in Ht. destruct Ht as [-> _].
        apply in_or_app. right. left. reflexivity. }
      unfold clean in Hpre. rewrite forallb_forall in Hpre.
      specialize (Hpre ev Hin). rewrite Hrej in Hpre. discriminate Hpre.
Qed.

End Ordering.

Ltac ordered_list :=
  repeat (apply ordered_cons; [simpl; eauto 10 | ]);
  apply ordered_nil.

Ltac walk_leg :=
  open_body; unfold trace, result;
  repeat (first [ sdk_call
                | match goal with
                  | |- context [if ?b then _ else _] => destruct b eqn:?
                  end ];
          simpl).

Section Legs.
Context {W : Type} (wh : Sdk W).
Variable self : Route -> option bool -> M W Event Xfer.

(** One activation on its own. *)
Lemma leg_phases (route : Route) (w : W) :
  ordered [] (trace (tokenTransfer_body wh self route None w)).
Proof.
  walk_leg; ordered_list.
Qed.

Lemma leg_fail_stop (route : Route) (w : W) :
  fail_stop (trace (tokenTransfer_body wh self route None w))
            (result (tokenTransfer_body wh self route None w)) /\
  (forall x, result (tokenTransfer_body wh self route None w) = Ok x ->
             clean (trace (tokenTransfer_body wh self route None w)) = true).
Proof.
  walk_leg;
    (split;
     [ first [ left; reflexivity
             | right; do 3 eexists;
               split; [ apply (@app_removelast_last _ _ (EvConsoleLog []));
                        discriminate
                      | simpl; repeat split ] ]
     | intros y Hy; first [discriminate Hy | reflexivity] ]).
Qed.

(** A transfer that returns has obtained a quote. *)
Lemma leg_quote (route : Route) (w : W) (x : Xfer) :
  result (tokenTransfer_body wh self route None w) = Ok x ->
  exists q, quote_of (trace (tokenTransfer_body wh self route None w)) = Some q.
Proof.
  walk_leg; intros H; try discriminate H; eauto.
Qed.

Lemma leg_explained (route : Route) (w : W) :
  match result (tokenTransfer_body wh self route None w) with
  | Throw err => explained (trace (tokenTransfer_body wh self route None w)) err
  | _ => clean (trace (tokenTransfer_body wh self route None w)) = true
  end.
Proof.
  walk_leg;
    try reflexivity;
    try solve [left; do 2 eexists;
               split; [ apply (@app_removelast_last _ _ (EvConsoleLog []));
                        discriminate
                      | simpl; split; reflexivity ]].
  right. split; [reflexivity|]. split; [reflexivity|].
  match goal with
  | H : _ && _ = true |- _ => apply andb_prop in H; destruct H as [Ha Hn]
  end.
  apply Z.ltb_lt in Hn.
  eexists [_], _, _, _, _. repeat split; eassumption.
Qed.

(** Who signs what, and on which object. *)
Lemma leg_signers (route : Route) (w : W) (x : Xfer) (s : Signer)
      (r : Thrown + list TxId) :
  (In (EvInitiateTransfer x s r)
      (trace (tokenTransfer_body wh self route None w)) ->
   s = ss_signer (source route) /\
   In (EvTokenTransfer (transfer_details route) (inr x))
      (trace (tokenTransfer_body wh self route None w))) /\
  (In (EvCompleteTransfer x s r)
      (trace (tokenTransfer_body wh self route None w)) ->
   s = ss_signer (destination route) /\
   In (EvTokenTransfer (transfer_details route) (inr x))
      (trace (tokenTransfer_body wh self route None w))).
Proof.
  walk_leg; (split; intros Hin; split_in Hin);
    injection Hin as <- <- <-; (split; [reflexivity | left; reflexivity]).
Qed.

(** No call is made twice in one activation. *)
Lemma leg_counts (route : Route) (w : W) :
  (List.length (filter is_quoteTransfer
                  (trace (tokenTransfer_body wh self route None w))) <= 1)%nat /\
  (List.length (filter is_initiateTransfer
                  (trace (tokenTransfer_body wh self route None w))) <= 1)%nat /\
  (List.length (filter is_fetchAttestation
                  (trace (tokenTransfer_body wh self route None w))) <= 1)%nat /\
  (List.length (filter is_completeTransfer
                  (trace (tokenTransfer_body wh self route None w))) <= 1)%nat.
Proof.
  walk_leg; repeat split; lia.
Qed.

(** The object returned is the one the activation created. *)
Lemma leg_returns_created (route : Route) (w : W) (x : Xfer) :
  result (tokenTransfer_body wh self route None w) = Ok x ->
  In (EvTokenTransfer (transfer_details route) (inr x))
     (trace (tokenTransfer_body wh self route None w)) /\
  exists s r, In (EvInitiateTransfer x s r)
                 (trace (tokenTransfer_body wh self route None w)).
Proof.
  walk_leg; intros H; try discriminate H; injection H as <-;
    (split; [left; reflexivity | do 2 eexists; do 4 right; left; reflexivity]).
Qed.

(** The source submission is attempted exactly when a quote was obtained
    and the guard of line 141 let it pass. *)
Lemma leg_submits (route : Route) (w : W) :
  (exists x s r,
      In (EvInitiateTransfer x s r)
         (trace (tokenTransfer_body wh self route None w))) <->
  (exists q,
      quote_of (trace (tokenTransfer_body wh self route None w)) = Some q /\
      is_automatic route && (ta_amount (destinationToken q) <? 0)%Z = false).
Proof.
  open_body; unfold trace, result.
  sdk_call; simpl.
  { split; [intros (x & s & r & Hin); split_in Hin
           | intros (q & Hq & _); discriminate Hq]. }
  pose proof (transfer_keeps_automatic wh _ _ Hcreate) as Hkeep.
  rewrite automatic_details in Hkeep. rewrite Hkeep.
  sdk_call; simpl.
  { split; [intros (x' & s & r & Hin); split_in Hin
           | intros (q & Hq & _); discriminate Hq]. }
  destruct (is_automatic route && (ta_amount (destinationToken q) <? 0)%Z)
    eqn:Hguard; simpl.
  { split; [intros (x' & s & r & Hin); split_in Hin|].
    intros (q' & Hq & Hg). injection Hq as <-. rewrite Hguard in Hg.
    discriminate Hg. }
  repeat (first [ sdk_call
                | match goal with
                  | |- context [if ?b then _ else _] => destruct b eqn:?
                  end ];
          simpl);
    (split; [intros _; exists q; split; [reflexivity | exact Hguard]
            | intros _; do 3 eexists; do 4 right; left; reflexivity]).
Qed.

(** Destination ids are recorded only by a transfer that returns. *)
Lemma leg_destination_ids (route : Route) (w : W) (x : Xfer) :
  destinationTxIds x (trace (tokenTransfer_body wh self route None w)) <> [] ->
  exists y,
    result (tokenTransfer_body wh self route None w) = Ok y /\
    same_xfer x y = true /\
    destinationTxIds x (trace (tokenTransfer_body wh self route None w))
    = destinationTxIds y (trace (tokenTransfer_body wh self route None w)).
Proof.
  walk_leg; unfold destinationTxIds; simpl; intros H;
    try (exfalso; apply H; reflexivity).
  eexists; split; [reflexivity|]; split; [assumption|].
  unfold same_xfer. now rewrite Nat.eqb_refl.
Qed.

(** The only transfer object an activation asks for is the one of its
    request. *)
Lemma leg_details (route : Route) (w : W) (d : TokenTransferDetails)
      (r : Thrown + Xfer) :
  In (EvTokenTransfer d r) (trace (tokenTransfer_body wh self route None w)) ->
  d = transfer_details route.
Proof.
  walk_leg; intros Hin; split_in Hin; now injection Hin as <- _.
Qed.

End Legs.

Section Runs.
Context {W : Type} (wh : Sdk W).

Lemma run_has_shape (depth : nat) (route : Route) (roundTrip : option bool)
      (w : W) :
  run_shape wh route roundTrip w (tokenTransfer wh depth route roundTrip w).
Proof.
  destruct depth as [|depth]; [apply shape_none|].
  change (tokenTransfer wh (S depth) route roundTrip w)
    with (tokenTransfer_body wh (tokenTransfer wh depth) route roundTrip w).
  rewrite body_round_trip.
  change (tokenTransfer_body wh (tokenTransfer wh depth) route None w)
    with (tokenTransfer wh 1 route None w).
  destruct (tokenTransfer wh 1 route None w) as [[[x| |] w'] t] eqn:Hleg;
    try (rewrite <- Hleg; apply shape_one; right; rewrite Hleg;
         intros y; discriminate).
  destruct (truthy roundTrip && negb (is_automatic route)) eqn:Hrt.
  - apply andb_prop in Hrt. destruct Hrt as [Hrt Hauto].
    apply negb_true_iff in Hauto.
    destruct (leg_quote wh (tokenTransfer wh 0) route w (x := x)) as (q & Hq).
    { change (tokenTransfer_body wh (tokenTransfer wh 0) route None w)
        with (tokenTransfer wh 1 route None w). now rewrite Hleg. }
    change (tokenTransfer_body wh (tokenTransfer wh 0) route None w)
      with (tokenTransfer wh 1 route None w) in Hq.
    rewrite Hleg in Hq. unfold trace in Hq; simpl in Hq. rewrite Hq.
    destruct (tokenTransfer wh depth (second_leg route q) None w')
      as [[r' w''] t'] eqn:Hsecond.
    eapply shape_two; eauto.
    destruct depth as [|depth]; [left; now rewrite <- Hsecond|].
    right. now rewrite <- Hsecond.
  - rewrite <- Hleg. apply shape_one. left. exact Hrt.
Qed.

Lemma quote_of_app (t t' : list Event) (q : Quote) :
  quote_of t = Some q -> quote_of (t ++ t') = Some q.
Proof.
  induction t as [|e t IH]; simpl; [discriminate|].
  destruct e; try exact IH. destruct r; [exact IH | trivial].
Qed.

Lemma count_app (p : Event -> bool) (t t' : list Event) :
  List.length (filter p (t ++ t'))
  = (List.length (filter p t) + List.length (filter p t'))%nat.
Proof. now rewrite filter_app, length_app. Qed.

Lemma explained_app (t t' : list Event) (err : Thrown) :
  clean t = true -> explained t' err -> explained (t ++ t') err.
Proof.
  intros Ht [(pre & ev & -> & Hpre & Hev)
            | (Hc & -> & pre & src & dst & d & q & -> & Ha & Hn)].
  - left. exists (t ++ pre), ev. repeat split; try assumption.
    + now rewrite app_assoc.
    + unfold clean in *. rewrite forallb_app, Ht, Hpre. reflexivity.
  - right. split; [|split; [reflexivity|]].
    + unfold clean in *. rewrite forallb_app, Ht, Hc. reflexivity.
    + exists (t ++ pre), src, dst, d, q. repeat split; try assumption.
      now rewrite app_assoc.
Qed.

Lemma no_completion_no_ids (x : Xfer) (t : list Event) :
  filter is_completeTransfer t = [] -> destinationTxIds x t = [].
Proof.
  unfold destinationTxIds.
  induction t as [|e t IH]; [reflexivity|].
  destruct e; simpl; intros H; try (apply IH; exact H).
  discriminate H.
Qed.

(** The facts about one activation, for the function unfolded once. *)
Lemma once (route : Route) (w : W) :
  tokenTransfer wh 1 route None w
  = tokenTransfer_body wh (tokenTransfer wh 0) route None w.
Proof. reflexivity. Qed.

(** What a run returns, it has created. *)
Lemma run_returns_created (depth : nat) (route : Route)
      (roundTrip : option bool) (w : W) (x : Xfer) :
  result (tokenTransfer wh depth route roundTrip w) = Ok x ->
  exists d,
    In (EvTokenTransfer d (inr x))
       (trace (tokenTransfer wh depth route roundTrip w)).
Proof.
  destruct (run_has_shape depth route roundTrip w)
    as [ | Hone | x0 w' t q r' w'' t' Hleg Hrt Hauto Hq Hsecond ].
  - discriminate.
  - intros Hres. rewrite once in *.
    destruct (leg_returns_created wh (tokenTransfer wh 0) route w Hres)
      as (Hin & _).
    eauto.
  - unfold result, trace; simpl. intros ->.
    destruct Hsecond as [Hsecond | Hsecond]; [discriminate Hsecond|].
    destruct (leg_returns_created wh (tokenTransfer wh 0) (second_leg route q)
                                  w' (x := x))
      as (Hin & _); [now rewrite <- once, <- Hsecond|].
    rewrite <- once, <- Hsecond in Hin. unfold trace in Hin; simpl in Hin.
    eexists. apply in_or_app. right. exact Hin.
Qed.

(** A run without round trip is at most one activation, on the request
    itself. *)
Lemma run_one_way (depth : nat) (route : Route) (roundTrip : option bool)
      (w : W) :
  truthy roundTrip = false ->
  (activations (trace (tokenTransfer wh depth route roundTrip w)) <= 1)%nat /\
  (forall d r,
      In (EvTokenTransfer d r)
         (trace (tokenTransfer wh depth route roundTrip w)) ->
      d = transfer_details route) /\
  (forall x s r,
      In (EvInitiateTransfer x s r)
         (trace (tokenTransfer wh depth route roundTrip w)) ->
      s = ss_signer (source route)) /\
  (forall x s r,
      In (EvCompleteTransfer x s r)
         (trace (tokenTransfer wh depth route roundTrip w)) ->
      s = ss_signer (destination route)).
Proof.
  intros Hrt. destruct depth as [|depth].
  - unfold trace, activations; simpl.
    split; [lia|]. repeat split; intros; contradiction.
  - rewrite tokenTransfer_single by assumption. rewrite once.
    pose proof (leg_shape wh (tokenTransfer wh 0) route w) as (Hact & _).
    rewrite Hact. split; [lia|].
    split; [intros d r; apply leg_details|].
    split; intros x s r Hin.
    + now apply (leg_signers wh (tokenTransfer wh 0) route w x s r).
    + now apply (leg_signers wh (tokenTransfer wh 0) route w x s r).
Qed.

End Runs.

(** ** Failures *)

(** X1: a call that a collaborator rejects is the last thing a run of
    [tokenTransfer] does, and the run throws the very error of the
    rejection: nothing is retried and nothing is called afterwards, in
    either leg. *)
Theorem rejected_call_ends_the_run
        (W : Type) (wh : Sdk W) (depth : nat) (route : Route)
        (roundTrip : option bool) (w : W)
        (before : list Event) (ev : Event) (rest : list Event)
        (err : Thrown) :
  trace (tokenTransfer wh depth route roundTrip w) = before ++ ev :: rest ->
  rejection ev = Some err ->
  rest = [] /\
  result (tokenTransfer wh depth route roundTrip w) = Throw err.
Proof.
  apply transfer_fail_stop_split.
  destruct (run_has_shape wh depth route roundTrip w)
    as [ | Hone | x w' t q r' w'' t' Hleg Hrt Hauto Hq Hsecond ].
  - left. reflexivity.
  - rewrite once. apply leg_fail_stop.
  - unfold trace, result; simpl.
    apply fail_stop_app.
    + pose proof (leg_fail_stop wh (tokenTransfer wh 0) route w) as (_ & Hclean).
      rewrite <- once, Hleg in Hclean. exact (Hclean x eq_refl).
    + destruct Hsecond as [Hsecond | Hsecond].
      * injection Hsecond as -> _ ->. left. reflexivity.
      * pose proof (leg_fail_stop wh (tokenTransfer wh 0) (second_leg route q) w')
          as (Hstop & _).
        rewrite <- once, <- Hsecond in Hstop. exact Hstop.
Qed.

Lemma rejected_call_ends_the_run_witness :
  rejection (last (trace (tokenTransfer (flaky_sdk 12 6) 2 (demo_route false)
                                        (Some true) 0%nat))
                  (EvConsoleLog []))
  = Some (Rejected 6) /\
  result (tokenTransfer (flaky_sdk 12 6) 2 (demo_route false) (Some true) 0%nat)
  = Throw (Rejected 6).
Proof.
  split; [reflexivity|].
  eapply (@rejected_call_ends_the_run
            nat (flaky_sdk 12 6) 2 (demo_route false) (Some true) 0%nat
            (removelast (trace (tokenTransfer (flaky_sdk 12 6) 2
                                              (demo_route false) (Some true)
                                              0%nat)))
            _ []).
  - vm_compute. reflexivity.
  - reflexivity.
Defined.

(** X2: when a run of [tokenTransfer] throws, the error is either the one
    its last call was rejected with, or the string "The amount requested
    is too low..." thrown right after a negative quote for an automatic
    transfer; until then no call was rejected. *)
Theorem thrown_error_is_explained
        (W : Type) (wh : Sdk W) (depth : nat) (route : Route)
        (roundTrip : option bool) (w : W) (err : Thrown) :
  result (tokenTransfer wh depth route roundTrip w) = Throw err ->
  (exists before ev,
      trace (tokenTransfer wh depth route roundTrip w) = before ++ [ev] /\
      clean before = true /\ rejection ev = Some err) \/
  (clean (trace (tokenTransfer wh depth route roundTrip w)) = true /\
   err = ThrowString too_low /\
   exists before src dst d q,
     trace (tokenTransfer wh depth route roundTrip w)
     = before ++ [EvQuoteTransfer src dst d (inr q); EvConsoleLog [LQuote q]] /\
     td_automatic d = true /\ ta_amount (destinationToken q) < 0).
Proof.
  change (result (tokenTransfer wh depth route roundTrip w) = Throw err ->
          explained (trace (tokenTransfer wh depth route roundTrip w)) err).
  destruct (run_has_shape wh depth route roundTrip w)
    as [ | Hone | x w' t q r' w'' t' Hleg Hrt Hauto Hq Hsecond ].
  - discriminate.
  - intros Hthrown.
    pose proof (leg_explained wh (tokenTransfer wh 0) route w) as Hex.
    rewrite <- once, Hthrown in Hex. exact Hex.
  - unfold trace, result; simpl. intros ->.
    apply explained_app.
    + pose proof (leg_explained wh (tokenTransfer wh 0) route w) as Hclean.
      rewrite <- once, Hleg in Hclean. exact Hclean.
    + destruct Hsecond as [Hsecond | Hsecond]; [discriminate Hsecond|].
      pose proof (leg_explained wh (tokenTransfer wh 0) (second_leg route q) w')
        as Hex.
      rewrite <- once, <- Hsecond in Hex. exact Hex.
Qed.

Lemma thrown_error_is_explained_witness :
  result (tokenTransfer (demo_sdk (10 ^ 10)) 2 (demo_route true) None 0%nat)
  = Throw (ThrowString too_low) /\
  clean (trace (tokenTransfer (demo_sdk (10 ^ 10)) 2 (demo_route true) None
                              0%nat)) = true.
Proof.
  split; [reflexivity|].
  destruct (@thrown_error_is_explained
              nat (demo_sdk (10 ^ 10)) 2 (demo_route true) None 0%nat
              (ThrowString too_low) eq_refl)
    as [(before & ev & Htrace & _ & Hrej) | (Hclean & _)].
  - exfalso.
    assert (Hlast : last (trace (tokenTransfer (demo_sdk (10 ^ 10)) 2
                                               (demo_route true) None 0%nat))
                         ev = ev)
      by (rewrite Htrace; apply last_last).
    vm_compute in Hlast. rewrite <- Hlast in Hrej. discriminate Hrej.
  - exact Hclean.
Defined.

(** ** Phases *)

(** X3: the phases of a transfer object come in order.  In every run, a
    call of [completeTransfer] on an object comes after an attestation was
    fetched for that object, with the timeout of 60 seconds, and a call
    of [fetchAttestation] comes after the source submission of the object
    went through. *)
Theorem transfer_phases_in_order
        (W : Type) (wh : Sdk W) (depth : nat) (route : Route)
        (roundTrip : option bool) (w : W)
        (before : list Event) (ev : Event) (rest : list Event) :
  trace (tokenTransfer wh depth route roundTrip w) = before ++ ev :: rest ->
  match ev with
  | EvCompleteTransfer x _ _ =>
      exists att s ids,
        In (EvFetchAttestation x 60000 (inr att)) before /\
        In (EvInitiateTransfer x s (inr ids)) before
  | EvFetchAttestation x _ _ =>
      exists s ids, In (EvInitiateTransfer x s (inr ids)) before
  | _ => True
  end.
Proof.
  assert (Hordered :
            ordered [] (trace (tokenTransfer wh depth route roundTrip w))).
  { destruct (run_has_shape wh depth route roundTrip w)
      as [ | Hone | x w' t q r' w'' t' Hleg Hrt Hauto Hq Hsecond ].
    - apply ordered_nil.
    - rewrite once. apply leg_phases.
    - unfold trace; simpl. apply ordered_app.
      + pose proof (leg_phases wh (tokenTransfer wh 0) route w) as H.
        now rewrite <- once, Hleg in H.
      + destruct Hsecond as [Hsecond | Hsecond].
        * injection Hsecond as _ _ ->. apply ordered_nil.
        * pose proof (leg_phases wh (tokenTransfer wh 0) (second_leg route q) w')
            as H.
          now rewrite <- once, <- Hsecond in H. }
  intros Htrace.
  pose proof (Hordered before ev rest Htrace) as Hreq. simpl in Hreq.
  destruct ev; try exact I; try exact Hreq.
  destruct Hreq as (att & Hfetch).
  destruct (in_split _ _ Hfetch) as (b1 & b2 & ->).
  rewrite <- app_assoc in Htrace. simpl in Htrace.
  pose proof (Hordered b1 _ _ Htrace) as Hreq. simpl in Hreq.
  destruct Hreq as (s0 & ids & Hinit).
  exists att, s0, ids. split; [exact Hfetch|].
  apply in_or_app. left. exact Hinit.
Qed.

Lemma transfer_phases_in_order_witness :
  exists att s ids,
    In (EvFetchAttestation
          {| xfer_id := 0; transfer := transfer_details (demo_route false) |}
          60000 (inr att))
       (firstn 10 (trace (tokenTransfer (demo_sdk 12) 1 (demo_route false)
                                        None 0%nat))) /\
    In (EvInitiateTransfer
          {| xfer_id := 0; transfer := transfer_details (demo_route false) |}
          s (inr ids))
       (firstn 10 (trace (tokenTransfer (demo_sdk 12) 1 (demo_route false)
                                        None 0%nat))).
Proof.
  apply (@transfer_phases_in_order
           nat (demo_sdk 12) 1 (demo_route false) None 0%nat
           (firstn 10 (trace (tokenTransfer (demo_sdk 12) 1 (demo_route false)
                                            None 0%nat)))
           (EvCompleteTransfer
              {| xfer_id := 0; transfer := transfer_details (demo_route false) |}
              (ss_signer receiver) (inr ["0xdestination"]))
           [EvConsoleLog [LStr "Completed Transfer: "; LTxIds ["0xdestination"]]]).
  vm_compute. reflexivity.
Defined.

(** X4: in a transfer without round trip, destination transaction ids are
    recorded for an object only by the run that returns that object: if
    anything failed, or the transfer is automatic, [destinationTxIds] is
    empty. *)
Theorem destination_ids_mean_returned
        (W : Type) (wh : Sdk W) (depth : nat) (route : Route)
        (roundTrip : option bool) (w : W) (x : Xfer) :
  truthy roundTrip = false ->
  destinationTxIds x (trace (tokenTransfer wh depth route roundTrip w)) <> [] ->
  exists y,
    result (tokenTransfer wh depth route roundTrip w) = Ok y /\
    same_xfer x y = true /\
    is_automatic route = false.
Proof.
  intros Hrt Hids.
  destruct depth as [|depth]; [exfalso; apply Hids; reflexivity|].
  rewrite tokenTransfer_single in * by assumption.
  destruct (leg_destination_ids wh (tokenTransfer wh 0) route w x Hids)
    as (y & Hres & Hsame & _).
  exists y. split; [exact Hres|]. split; [exact Hsame|].
  destruct (is_automatic route) eqn:Hauto; [|reflexivity].
  exfalso. apply Hids. apply no_completion_no_ids.
  now apply automatic_leg_never_completes.
Qed.

Lemma destination_ids_mean_returned_witness :
  exists y,
    result (tokenTransfer (demo_sdk 12) 2 (demo_route false) (Some false) 0%nat)
    = Ok y /\
    same_xfer {| xfer_id := 0; transfer := transfer_details (demo_route false) |}
              y = true.
Proof.
  destruct (@destination_ids_mean_returned
              nat (demo_sdk 12) 2 (demo_route false) (Some false) 0%nat
              {| xfer_id := 0; transfer := transfer_details (demo_route false) |}
              eq_refl)
    as (y & Hres & Hsame & _).
  - vm_compute. discriminate.
  - exists y. split; assumption.
Defined.

(** X5: a round trip whose return leg fails throws the error of the
    return leg.  The first transfer has been redeemed on the destination
    chain by then (its [completeTransfer] went through and stays in the
    run), but its object is not returned to the caller. *)
Theorem failed_return_leg_loses_first_transfer
        (W : Type) (wh : Sdk W) (depth : nat) (route : Route) (w w' : W)
        (x : Xfer) (t : list Event) (q : Quote) (s : Signer)
        (ids : list TxId) (err : Thrown) :
  tokenTransfer wh 1 route None w = (Ok x, w', t) ->
  In (EvCompleteTransfer x s (inr ids)) t ->
  quote_of t = Some q ->
  result (tokenTransfer wh 1 (second_leg route q) None w') = Throw err ->
  result (tokenTransfer wh (S (S depth)) route (Some true) w) = Throw err /\
  In (EvCompleteTransfer x s (inr ids))
     (trace (tokenTransfer wh (S (S depth)) route (Some true) w)) /\
  (ids <> [] ->
   destinationTxIds x (trace (tokenTransfer wh (S (S depth)) route (Some true) w))
   <> []).
Proof.
  intros Hleg Hdone Hq Hfail.
  assert (Hmanual : is_automatic route = false).
  { destruct (is_automatic route) eqn:Hauto; [|reflexivity].
    pose proof (automatic_leg_never_completes wh route w Hauto) as Hnone.
    rewrite Hleg in Hnone. unfold trace in Hnone; simpl in Hnone.
    assert (Hin : In (EvCompleteTransfer x s (inr ids))
                     (filter is_completeTransfer t))
      by (apply filter_In; split; [exact Hdone | reflexivity]).
    rewrite Hnone in Hin. destruct Hin. }
  rewrite tokenTransfer_round_trip, Hleg. cbv beta iota.
  rewrite Hmanual. cbn [truthy andb negb]. rewrite Hq.
  destruct (tokenTransfer wh 1 (second_leg route q) None w')
    as [[r' w''] t'].
  unfold result, trace in *; simpl in *.
  split; [exact Hfail|].
  assert (Hin : In (EvCompleteTransfer x s (inr ids)) (t ++ t'))
    by (apply in_or_app; left; exact Hdone).
  split; [exact Hin|].
  intros Hne Hempty. unfold destinationTxIds in Hempty.
  destruct ids as [|i ids]; [now apply Hne|].
  assert (Hi : In i (flat_map
                       (fun e => match e with
                                 | EvCompleteTransfer y _ (inr l) =>
                                     if same_xfer x y then l else []
                                 | _ => []
                                 end) (t ++ t'))).
  { apply in_flat_map. exists (EvCompleteTransfer x s (inr (i :: ids))).
    split; [exact Hin|]. unfold same_xfer. rewrite Nat.eqb_refl.
    left. reflexivity. }
  rewrite Hempty in Hi. destruct Hi.
Qed.

Lemma failed_return_leg_loses_first_transfer_witness :
  result (tokenTransfer (flaky_sdk 12 6) 2 (demo_route false) (Some true) 0%nat)
  = Throw (Rejected 6) /\
  destinationTxIds
    {| xfer_id := 0; transfer := transfer_details (demo_route false) |}
    (trace (tokenTransfer (flaky_sdk 12 6) 2 (demo_route false) (Some true)
                          0%nat))
  <> [].
Proof.
  edestruct (@failed_return_leg_loses_first_transfer
               nat (flaky_sdk 12 6) 0 (demo_route false) 0%nat)
    as (Hres & _ & Hids).
  - reflexivity.
  - do 10 right. left. reflexivity.
  - reflexivity.
  - reflexivity.
  - split; [exact Hres|]. apply Hids. discriminate.
Defined.

(** ** Signers and objects *)

(** X6: every submission of a run acts on a transfer object the run
    created itself and is signed by the matching party.  On the first
    leg the source signer signs [initiateTransfer] and the destination
    signer [completeTransfer]; on the return leg of a round trip the
    roles are exchanged. *)
Theorem submissions_use_the_request_signers
        (W : Type) (wh : Sdk W) (depth : nat) (route : Route)
        (roundTrip : option bool) (w : W)
        (x : Xfer) (s : Signer) (r : Thrown + list TxId) :
  (In (EvInitiateTransfer x s r)
      (trace (tokenTransfer wh depth route roundTrip w)) ->
   (s = ss_signer (source route) /\
    In (EvTokenTransfer (transfer_details route) (inr x))
       (trace (tokenTransfer wh depth route roundTrip w)))
   \/
   (exists q,
       truthy roundTrip = true /\
       quote_of (trace (tokenTransfer wh depth route roundTrip w)) = Some q /\
       s = ss_signer (destination route) /\
       In (EvTokenTransfer (transfer_details (second_leg route q)) (inr x))
          (trace (tokenTransfer wh depth route roundTrip w)))) /\
  (In (EvCompleteTransfer x s r)
      (trace (tokenTransfer wh depth route roundTrip w)) ->
   (s = ss_signer (destination route) /\
    In (EvTokenTransfer (transfer_details route) (inr x))
       (trace (tokenTransfer wh depth route roundTrip w)))
   \/
   (exists q,
       truthy roundTrip = true /\
       quote_of (trace (tokenTransfer wh depth route roundTrip w)) = Some q /\
       s = ss_signer (source route) /\
       In (EvTokenTransfer (transfer_details (second_leg route q)) (inr x))
          (trace (tokenTransfer wh depth route roundTrip w)))).
Proof.
  destruct (run_has_shape wh depth route roundTrip w)
    as [ | Hone | x0 w' t q r' w'' t' Hleg Hrt Hauto Hq Hsecond ].
  - split; intros [].
  - rewrite once.
    destruct (leg_signers wh (tokenTransfer wh 0) route w x s r) as (Hi & Hc).
    split; intros Hin; left; auto.
  - unfold trace; simpl.
    destruct (leg_signers wh (tokenTransfer wh 0) route w x s r) as (Hi & Hc).
    rewrite <- once, Hleg in Hi, Hc. unfold trace in Hi, Hc; simpl in Hi, Hc.
    assert (Hsecond' :
              t' = [] \/
              t' = trace (tokenTransfer wh 1 (second_leg route q) None w')).
    { destruct Hsecond as [H|H]; [left; now injection H|right].
      now rewrite <- H. }
    destruct (leg_signers wh (tokenTransfer wh 0) (second_leg route q) w' x s r)
      as (Hi' & Hc').
    rewrite <- once in Hi', Hc'.
    split; intros Hin; apply in_app_or in Hin; destruct Hin as [Hin|Hin].
    + left. destruct (Hi Hin) as (-> & Hcreated).
      split; [reflexivity | apply in_or_app; left; exact Hcreated].
    + right. destruct Hsecond' as [-> | ->]; [destruct Hin|].
      destruct (Hi' Hin) as (-> & Hcreated).
      exists q. repeat split; try assumption.
      * now apply quote_of_app.
      * apply in_or_app; right; exact Hcreated.
    + left. destruct (Hc Hin) as (-> & Hcreated).
      split; [reflexivity | apply in_or_app; left; exact Hcreated].
    + right. destruct Hsecond' as [-> | ->]; [destruct Hin|].
      destruct (Hc' Hin) as (-> & Hcreated).
      exists q. repeat split; try assumption.
      * now apply quote_of_app.
      * apply in_or_app; right; exact Hcreated.
Qed.

Lemma submissions_use_the_request_signers_witness :
  In (EvInitiateTransfer
        {| xfer_id := 5;
           transfer :=
             transfer_details
               (second_leg (demo_route false)
                  (demo_quote 12 solana (transfer_details (demo_route false)))) |}
        (ss_signer receiver) (inr ["0xsource"]))
     (trace (tokenTransfer (demo_sdk 12) 2 (demo_route false) (Some true) 0%nat))
  /\ ss_signer receiver <> ss_signer sender.
Proof.
  assert (Hin : In (EvInitiateTransfer
                      {| xfer_id := 5;
                         transfer :=
                           transfer_details
                             (second_leg (demo_route false)
                                (demo_quote 12 solana
                                   (transfer_details (demo_route false)))) |}
                      (ss_signer receiver) (inr ["0xsource"]))
                   (trace (tokenTransfer (demo_sdk 12) 2 (demo_route false)
                                         (Some true) 0%nat)))
    by (vm_compute; do 16 right; left; reflexivity).
  split; [exact Hin|].
  destruct (@submissions_use_the_request_signers
              nat (demo_sdk 12) 2 (demo_route false) (Some true) 0%nat
              {| xfer_id := 5;
                 transfer :=
                   transfer_details
                     (second_leg (demo_route false)
                        (demo_quote 12 solana
                           (transfer_details (demo_route false)))) |}
              (ss_signer receiver) (inr ["0xsource"])) as (Hinit & _).
  destruct (Hinit Hin) as [(Hs & _) | (q & _ & _ & Hs & _)].
  - discriminate Hs.
  - discriminate.
Defined.

(** X7: the source-chain submission is attempted exactly when the first
    quote of the run was obtained and passed the guard of line 141, that
    is, unless the transfer is automatic and the quoted amount negative.
    In particular a manual transfer is submitted whatever the quote. *)
Theorem source_submission_iff_quote_passes_guard
        (W : Type) (wh : Sdk W) (depth : nat) (route : Route)
        (roundTrip : option bool) (w : W) :
  (exists x s r,
      In (EvInitiateTransfer x s r)
         (trace (tokenTransfer wh depth route roundTrip w))) <->
  (exists q,
      quote_of (trace (tokenTransfer wh depth route roundTrip w)) = Some q /\
      is_automatic route && (ta_amount (destinationToken q) <? 0)%Z = false).
Proof.
  destruct (run_has_shape wh depth route roundTrip w)
    as [ | Hone | x0 w' t q r' w'' t' Hleg Hrt Hauto Hq Hsecond ].
  - split; [intros (x & s & r & []) | intros (q & Hq & _); discriminate Hq].
  - rewrite once. apply leg_submits.
  - unfold trace; simpl.
    pose proof (leg_submits wh (tokenTransfer wh 0) route w) as Hiff.
    rewrite <- once, Hleg in Hiff. unfold trace in Hiff; simpl in Hiff.
    destruct (leg_returns_created wh (tokenTransfer wh 0) route w (x := x0))
      as (_ & s & r & Hin).
    { now rewrite <- once, Hleg. }
    rewrite <- once, Hleg in Hin. unfold trace in Hin; simpl in Hin.
    assert (Hleft : exists x s r, In (EvInitiateTransfer x s r) t) by eauto.
    apply Hiff in Hleft. destruct Hleft as (q' & Hq' & Hguard).
    split.
    + intros _. exists q'. split; [now apply quote_of_app | exact Hguard].
    + intros _. exists x0, s, r. apply in_or_app. left. exact Hin.
Qed.

Lemma source_submission_iff_quote_passes_guard_witness :
  exists x s r,
    In (EvInitiateTransfer x s r)
       (trace (tokenTransfer (demo_sdk 12) 1 (demo_route false) None 0%nat)).
Proof.
  apply (@source_submission_iff_quote_passes_guard
           nat (demo_sdk 12) 1 (demo_route false) None 0%nat).
  eexists. split; reflexivity.
Defined.

(** ** Counting calls *)

(** X8: nothing is retried.  A run consists of at most two activations
    and calls each of [quoteTransfer], [initiateTransfer],
    [fetchAttestation] and [completeTransfer] at most once per
    activation. *)
Theorem transfer_calls_are_not_repeated
        (W : Type) (wh : Sdk W) (depth : nat) (route : Route)
        (roundTrip : option bool) (w : W) :
  (activations (trace (tokenTransfer wh depth route roundTrip w)) <= 2)%nat /\
  (List.length (filter is_quoteTransfer
                  (trace (tokenTransfer wh depth route roundTrip w)))
   <= activations (trace (tokenTransfer wh depth route roundTrip w)))%nat /\
  (List.length (filter is_initiateTransfer
                  (trace (tokenTransfer wh depth route roundTrip w)))
   <= activations (trace (tokenTransfer wh depth route roundTrip w)))%nat /\
  (List.length (filter is_fetchAttestation
                  (trace (tokenTransfer wh depth route roundTrip w)))
   <= activations (trace (tokenTransfer wh depth route roundTrip w)))%nat /\
  (List.length (filter is_completeTransfer
                  (trace (tokenTransfer wh depth route roundTrip w)))
   <= activations (trace (tokenTransfer wh depth route roundTrip w)))%nat.
Proof.
  destruct (run_has_shape wh depth route roundTrip w)
    as [ | Hone | x0 w' t q r' w'' t' Hleg Hrt Hauto Hq Hsecond ].
  - unfold trace, activations; simpl. repeat split; lia.
  - pose proof (leg_shape wh (tokenTransfer wh 0) route w) as (Hact & _).
    pose proof (leg_counts wh (tokenTransfer wh 0) route w) as (H1 & H2 & H3 & H4).
    rewrite <- once in *. rewrite Hact. repeat split; lia.
  - pose proof (leg_shape wh (tokenTransfer wh 0) route w) as (Hact & _).
    pose proof (leg_counts wh (tokenTransfer wh 0) route w) as (H1 & H2 & H3 & H4).
    rewrite <- once, Hleg in Hact, H1, H2, H3, H4.
    unfold trace in Hact, H1, H2, H3, H4 |- *.
    cbn [snd] in Hact, H1, H2, H3, H4 |- *.
    rewrite activations_app, !count_app, Hact.
    destruct Hsecond as [Hsecond | Hsecond].
    + injection Hsecond as _ _ ->.
      change (activations (@nil Event)) with 0%nat. simpl.
      repeat split; lia.
    + pose proof (leg_shape wh (tokenTransfer wh 0) (second_leg route q) w')
        as (Hact' & _).
      pose proof (leg_counts wh (tokenTransfer wh 0) (second_leg route q) w')
        as (H1' & H2' & H3' & H4').
      rewrite <- once, <- Hsecond in Hact', H1', H2', H3', H4'.
      unfold trace in Hact', H1', H2', H3', H4'.
      cbn [snd] in Hact', H1', H2', H3', H4'. rewrite Hact'.
      repeat split; lia.
Qed.

(** ** Automatic delivery and round trips *)

(** X9: for an automatic request the [roundTrip] argument has no effect:
    result, final state of the world and calls made are those of the
    one-way transfer. *)
Theorem automatic_ignores_roundTrip
        (W : Type) (wh : Sdk W) (depth : nat) (route : Route)
        (roundTrip : option bool) (w : W) :
  is_automatic route = true ->
  tokenTransfer wh depth route roundTrip w = tokenTransfer wh depth route None w.
Proof.
  intros Hauto. destruct depth as [|depth]; [reflexivity|].
  now rewrite (tokenTransfer_automatic wh depth route roundTrip w Hauto).
Qed.

Lemma automatic_ignores_roundTrip_witness :
  tokenTransfer (demo_sdk 12) 2 (demo_route true) (Some true) 0%nat
  = tokenTransfer (demo_sdk 12) 2 (demo_route true) None 0%nat.
Proof.
  apply (@automatic_ignores_roundTrip
           nat (demo_sdk 12) 2 (demo_route true) (Some true) 0%nat).
  reflexivity.
Defined.

(** X10: the object a run returns is the one created last.  A one-way
    transfer returns the object made for the request; a round trip that
    succeeds returns the object of the return leg, made for [second_leg]
    with the first quote, and not the object of the first transfer. *)
Theorem returned_object_is_last_created
        (W : Type) (wh : Sdk W) (depth : nat) (route : Route)
        (roundTrip : option bool) (w : W) (y : Xfer) :
  result (tokenTransfer wh depth route roundTrip w) = Ok y ->
  (activations (trace (tokenTransfer wh depth route roundTrip w)) = 1%nat /\
   In (EvTokenTransfer (transfer_details route) (inr y))
      (trace (tokenTransfer wh depth route roundTrip w)))
  \/
  (activations (trace (tokenTransfer wh depth route roundTrip w)) = 2%nat /\
   truthy roundTrip = true /\
   exists q,
     quote_of (trace (tokenTransfer wh depth route roundTrip w)) = Some q /\
     last (filter is_tokenTransfer
             (trace (tokenTransfer wh depth route roundTrip w)))
          (EvConsoleLog [])
     = EvTokenTransfer (transfer_details (second_leg route q)) (inr y)).
Proof.
  destruct (run_has_shape wh depth route roundTrip w)
    as [ | Hone | x0 w' t q r' w'' t' Hleg Hrt Hauto Hq Hsecond ].
  - discriminate.
  - intros Hres. left.
    pose proof (leg_shape wh (tokenTransfer wh 0) route w) as (Hact & _).
    destruct (leg_returns_created wh (tokenTransfer wh 0) route w (x := y))
      as (Hin & _); [now rewrite <- once|].
    rewrite <- once in *. split; assumption.
  - unfold result, trace; simpl. intros ->. right.
    destruct Hsecond as [Hsecond | Hsecond]; [discriminate Hsecond|].
    pose proof (leg_shape wh (tokenTransfer wh 0) route w) as (Hact & _).
    pose proof (leg_shape wh (tokenTransfer wh 0) (second_leg route q) w')
      as (Hact' & _).
    destruct (leg_returns_created wh (tokenTransfer wh 0) (second_leg route q)
                                  w' (x := y))
      as (Hin & _); [now rewrite <- once, <- Hsecond|].
    rewrite <- once, Hleg in Hact. rewrite <- once, <- Hsecond in Hact', Hin.
    unfold trace in *; simpl in *.
    rewrite activations_app, Hact, Hact'.
    split; [reflexivity|]. split; [exact Hrt|].
    exists q. split; [now apply quote_of_app|].
    rewrite filter_app.
    unfold activations in Hact'.
    assert (Hin' : In (EvTokenTransfer (transfer_details (second_leg route q))
                                       (inr y))
                      (filter is_tokenTransfer t'))
      by (apply filter_In; split; [exact Hin | reflexivity]).
    destruct (filter is_tokenTransfer t') as [|e [|e' l]];
      try discriminate Hact'.
    destruct Hin' as [<- | []]. apply last_last.
Qed.

Lemma returned_object_is_last_created_witness :
  activations
    (trace (tokenTransfer (demo_sdk 12) 2 (demo_route false) (Some true) 0%nat))
  = 2%nat.
Proof.
  destruct (@returned_object_is_last_created
              nat (demo_sdk 12) 2 (demo_route false) (Some true) 0%nat
              {| xfer_id := 5;
                 transfer :=
                   transfer_details
                     (second_leg (demo_route false)
                        (demo_quote 12 solana
                           (transfer_details (demo_route false)))) |}
              eq_refl)
    as [(Hone & _) | (Htwo & _)].
  - vm_compute in Hone. discriminate Hone.
  - exact Htwo.
Defined.

End TransferExtras.

(** * Further properties of the attestation script *)

Module AttestationExtras.
Import CreateWrapped AttestationTrace AttestationProperties.

Section Loop.
Context {W : Type} (wh : Sdk W).
Variable tbDest : TokenBridge.

(** Every lookup of the loop is for the token of the script, on the
    bridge the loop was given. *)
Lemma waitForIt_lookups (rounds : nat) (w : W)
      (tb : TokenBridge) (tok : TokenId) (r : Thrown + string) :
  In (EvGetWrappedAsset tb tok r) (trace (waitForIt wh tbDest rounds w)) ->
  tb = tbDest /\ tok = tokenId.
Proof.
  intros Hin.
  assert (Hround : forall errs,
             In (EvGetWrappedAsset tb tok r)
                (flat_map (failed_round tbDest) errs) ->
             tb = tbDest /\ tok = tokenId).
  { intros errs H. apply in_flat_map in H. destruct H as (err & _ & H).
    unfold failed_round in H. simpl in H.
    repeat (destruct H as [H|H]; try discriminate H); try contradiction.
    injection H as <- <- _. split; reflexivity. }
  destruct (waitForIt_shape wh tbDest rounds w)
    as (errs & [(_ & _ & Htr & _) | (a & wk & _ & _ & Htr & _)]);
    rewrite Htr in Hin.
  - eauto.
  - apply in_app_or in Hin. destruct Hin as [Hin|Hin]; [eauto|].
    simpl in Hin. destruct Hin as [Hin|[]].
    injection Hin as <- <- _. split; reflexivity.
Qed.

Lemma waitForIt_clean (rounds : nat) (w : W) :
  clean (trace (waitForIt wh tbDest rounds w)) = true.
Proof.
  unfold clean. apply forallb_forall. intros e Hin.
  apply waitForIt_only_polls in Hin.
  destruct e; try discriminate Hin; try reflexivity.
  destruct r; reflexivity.
Qed.

(** A loop that returned within [rounds] iterations is the same
    however many more iterations are followed. *)
Lemma waitForIt_more_rounds (rounds : nat) :
  forall (w : W) (more : nat),
    result (waitForIt wh tbDest rounds w) <> Pending ->
    waitForIt wh tbDest (rounds + more) w = waitForIt wh tbDest rounds w.
Proof.
  induction rounds as [|rounds IH]; intros w more Hdone.
  - exfalso. apply Hdone. reflexivity.
  - change (S rounds + more)%nat with (S (rounds + more)).
    rewrite !waitForIt_step. rewrite waitForIt_step in Hdone.
    destruct (getWrappedAsset wh tbDest tokenId w) as [[e|a] w1];
      [|reflexivity].
    rewrite IH; [reflexivity|].
    destruct (waitForIt wh tbDest rounds (setTimeout wh 2000 w1))
      as [[r w2] t].
    exact Hdone.
Qed.

Lemma waitForIt_never_throws (rounds : nat) (w : W) (err : Thrown) :
  result (waitForIt wh tbDest rounds w) <> Throw err.
Proof.
  destruct (waitForIt_shape wh tbDest rounds w)
    as (errs & [(Hres & _) | (a & wk & Hres & _)]);
    rewrite Hres; discriminate.
Qed.

(** What the loop returns is the address of a successful lookup. *)
Lemma waitForIt_found (rounds : nat) (w w' : W) (found : Wrapped)
      (polled : list Event) :
  waitForIt wh tbDest rounds w = (Ok found, w', polled) ->
  w_chain found = chain destChain /\
  In (EvGetWrappedAsset tbDest tokenId (inr (w_address found))) polled.
Proof.
  intros Hrun.
  destruct (waitForIt_shape wh tbDest rounds w)
    as (errs & [(Hres & _) | (a & wk & Hres & _ & Htr & _)]);
    rewrite Hrun in *; unfold result, trace in *; simpl in *.
  - discriminate Hres.
  - injection Hres as ->. split; [reflexivity|].
    rewrite Htr. apply in_or_app. right. left. reflexivity.
Qed.

End Loop.

Section Stops.

Lemma script_fail_stop_split (t : list Event) (r : Res (option Wrapped)) :
  fail_stop t r ->
  forall pre ev post err,
    t = pre ++ ev :: post -> rejection ev = Some err ->
    is_getWrappedAsset ev = false ->
    post = [] /\ r = Throw err.
Proof.
  intros [Hc | (pre0 & ev0 & err0 & -> & Hpre & Hev & _ & ->)]
         pre ev post err Ht Hrej Hlook.
  - exfalso. subst t. unfold clean in Hc.
    rewrite forallb_app in Hc. apply andb_prop in Hc. destruct Hc as [_ Hc].
    simpl in Hc. rewrite Hrej, Hlook in Hc. discriminate Hc.
  - destruct post as [|p post].
    + apply app_inj_tail in Ht. destruct Ht as [_ ->].
      rewrite Hev in Hrej. injection Hrej as ->. split; reflexivity.
    + exfalso.
      assert (Hin : In ev pre0).
      { assert (Hne : p :: post <> []) by discriminate.
        rewrite (app_removelast_last ev Hne) in Ht.
        rewrite app_comm_cons, app_assoc in Ht.
        apply app_inj_tail in Ht. destruct Ht as [-> _].
        apply in_or_app. right. left. reflexivity. }
      unfold clean in Hpre. rewrite forallb_forall in Hpre.
      specialize (Hpre ev Hin). rewrite Hrej, Hlook in Hpre.
      discriminate Hpre.
Qed.

End Stops.

(** ** The top-level handler *)

(** X11: the script never rejects.  Whatever [createWrapped] throws is
    caught by the final [.catch], printed with [console.error] as the
    last event, and the script resolves; a run that does not throw is
    left as it is. *)
Theorem main_prints_every_error
        (W : Type) (wh : Sdk W) (rounds : nat) (w : W) :
  (forall err,
      result (createWrapped wh rounds w) = Throw err ->
      result (main wh rounds w) = Ok tt /\
      final (main wh rounds w) = final (createWrapped wh rounds w) /\
      trace (main wh rounds w)
      = trace (createWrapped wh rounds w) ++ [EvConsoleError [LThrown err]]) /\
  ((forall err, result (createWrapped wh rounds w) <> Throw err) ->
   trace (main wh rounds w) = trace (createWrapped wh rounds w)) /\
  (forall err, result (main wh rounds w) <> Throw err).
Proof.
  unfold main, try_catch, bind, emit, ret, result, final, trace.
  destruct (createWrapped wh rounds w) as [[[v|e|] w'] t]; simpl.
  - repeat split; try discriminate. intros _. apply app_nil_r.
  - repeat split; try discriminate.
    + now injection H as <-.
    + intros Hnever. exfalso. now apply (Hnever e).
  - repeat split; discriminate.
Qed.

Lemma main_prints_every_error_witness :
  result (createWrapped (demo_sdk never_signed) 3 0%nat)
  = Throw (ThrowError vaa_not_found) /\
  result (main (demo_sdk never_signed) 3 0%nat) = Ok tt.
Proof.
  split; [reflexivity|].
  destruct (@main_prints_every_error nat (demo_sdk never_signed) 3 0%nat)
    as (Hcaught & _).
  apply (Hcaught (ThrowError vaa_not_found)). reflexivity.
Defined.

(** ** The loop and its bound *)

(** X12: the number of iterations the model follows does not matter once
    the loop has returned: if [waitForIt] returns within [rounds]
    iterations, following it any longer gives the same result, the same
    final state of the world and the same calls. *)
Theorem waitForIt_result_is_stable
        (W : Type) (wh : Sdk W) (tbDest : TokenBridge) (rounds more : nat)
        (w : W) :
  result (waitForIt wh tbDest rounds w) <> Pending ->
  waitForIt wh tbDest (rounds + more) w = waitForIt wh tbDest rounds w /\
  (exists a,
      result (waitForIt wh tbDest rounds w)
      = Ok {| w_chain := chain destChain; w_address := a |}).
Proof.
  intros Hdone. split; [now apply waitForIt_more_rounds|].
  destruct (waitForIt_shape wh tbDest rounds w)
    as (errs & [(Hres & _) | (a & wk & Hres & _)]).
  - contradiction.
  - eauto.
Qed.

Lemma waitForIt_result_is_stable_witness :
  waitForIt (demo_sdk (fresh_token (Some 3%nat))) {| tb_chain := "Solana" |}
            (4 + 10) 0%nat
  = waitForIt (demo_sdk (fresh_token (Some 3%nat))) {| tb_chain := "Solana" |}
              4 0%nat.
Proof.
  apply (@waitForIt_result_is_stable
           nat (demo_sdk (fresh_token (Some 3%nat))) {| tb_chain := "Solana" |}
           4 10 0%nat).
  vm_compute. discriminate.
Defined.

(** ** Walking the script *)

(** What is known of the events of the polling loop at the end of a run:
    they are lookups, console lines and delays, lookups are for the
    token and bridge of the script, and nothing else is called. *)
Ltac loop_facts :=
  match goal with
  | Hpoll : waitForIt ?wh ?tb ?n ?w = (_, _, ?polled) |- _ =>
      let Hall := fresh "Hall" in
      let Hlook := fresh "Hlook" in
      let Hclean := fresh "Hclean" in
      pose proof (fun e => @waitForIt_only_polls _ wh tb n w e) as Hall;
      pose proof (fun tb' tok r =>
                    @waitForIt_lookups _ wh tb n w tb' tok r) as Hlook;
      pose proof (@waitForIt_clean _ wh tb n w) as Hclean;
      rewrite Hpoll in Hall, Hlook, Hclean;
      unfold trace in Hall, Hlook, Hclean;
      cbn [snd] in Hall, Hlook, Hclean;
      let quiet p :=
        let H := fresh "Hquiet" in
        pose proof (waitForIt_filter wh tb p n w
                      ltac:(intros [] ?; (reflexivity || discriminate))) as H;
        rewrite Hpoll in H; unfold trace in H; cbn [snd] in H in
      quiet is_getVaa; quiet is_parseTransaction; quiet is_signSendWait;
      quiet is_createAttestation; quiet is_submitAttestation;
      quiet is_getSigner; quiet is_getTokenBridge
  end.

Ltac count_calls :=
  simpl; rewrite ?filter_app;
  repeat match goal with
         | H : filter _ _ = [] |- _ => try rewrite H; clear H
         end;
  simpl; lia.

(** ** Lookups *)

(** X13: every wrapped-asset lookup of a run, the first check as well as
    those of the polling loop, is for the token of the script and goes
    to the token bridge obtained for the destination chain. *)
Theorem lookups_use_destination_bridge
        (W : Type) (wh : Sdk W) (rounds : nat) (w : W)
        (tb : TokenBridge) (tok : TokenId) (r : Thrown + string) :
  In (EvGetWrappedAsset tb tok r) (trace (createWrapped wh rounds w)) ->
  tok = tokenId /\
  In (EvGetTokenBridge destChain (inr tb)) (trace (createWrapped wh rounds w)).
Proof.
  unfold trace, result. walk_script; intros Hin; try loop_facts.
  all: simpl in Hin;
    repeat (destruct Hin as [Hin|Hin]; try discriminate Hin);
    try contradiction.
  all: try (apply in_app_or in Hin; destruct Hin as [Hin|Hin];
            [|simpl in Hin;
              repeat (destruct Hin as [Hin|Hin]; try discriminate Hin);
              try contradiction]).
  all: try match goal with
           | Hlook : forall tb' tok' r', In _ ?p -> _, H : In _ ?p |- _ =>
               destruct (Hlook _ _ _ H) as [-> ->]
           end.
  all: try (injection Hin as <- <- <-).
  all: split; [reflexivity | find_in].
Qed.

Lemma lookups_use_destination_bridge_witness :
  In (EvGetTokenBridge destChain (inr {| tb_chain := "Solana" |}))
     (trace (createWrapped (demo_sdk (fresh_token (Some 2%nat))) 5 0%nat)).
Proof.
  eapply (@lookups_use_destination_bridge
            nat (demo_sdk (fresh_token (Some 2%nat))) 5 0%nat
            {| tb_chain := "Solana" |} tokenId (inr "wrapped-address")).
  vm_compute. repeat first [left; reflexivity | right].
Defined.

(** X14: a first lookup that is rejected, whatever the error, makes the
    script go on with the attestation: it prints "No wrapped token
    found...", asks for the signer of the origin chain, and does not
    return a wrapped asset. *)
Theorem failed_lookup_starts_attestation
        (W : Type) (wh : Sdk W) (rounds : nat) (w : W)
        (tb : TokenBridge) (tok : TokenId) (err : Thrown) :
  hd_error (filter is_getWrappedAsset (trace (createWrapped wh rounds w)))
  = Some (EvGetWrappedAsset tb tok (inl err)) ->
  In (EvConsoleLog
        [LStr "No wrapped token found on Solana. Proceeding with attestation."])
     (trace (createWrapped wh rounds w)) /\
  (exists r, In (EvGetSigner origChain None r)
                (trace (createWrapped wh rounds w))) /\
  (forall found, result (createWrapped wh rounds w) <> Ok (Some found)).
Proof.
  unfold trace, result. walk_script; intros Hfirst; try discriminate Hfirst.
  all: split; [find_in|]; (split; [eexists; find_in | intros ?; discriminate]).
Qed.

Lemma failed_lookup_starts_attestation_witness :
  exists r,
    In (EvGetSigner origChain None r)
       (trace (createWrapped (demo_sdk (fresh_token (Some 2%nat))) 5 0%nat)).
Proof.
  eapply (@failed_lookup_starts_attestation
            nat (demo_sdk (fresh_token (Some 2%nat))) 5 0%nat).
  reflexivity.
Defined.

(** ** Submissions *)

(** X15: the attestation is submitted on the origin chain only after the
    first lookup was rejected; what is submitted is the attestation of
    the script's token built by the origin chain's token bridge, paid and
    signed by the signer obtained for the origin chain. *)
Theorem origin_submission_provenance
        (W : Type) (wh : Sdk W) (rounds : nat) (w : W)
        (c : ChainContext) (tb : TokenBridge) (tok payer : string)
        (s : Signer) (r : Thrown + list TxRef) :
  In (EvSignSendWait c (CreateAttestationTxns tb tok payer) s r)
     (trace (createWrapped wh rounds w)) ->
  c = origChain /\
  tok = tok_address tokenId /\
  In (EvGetTokenBridge origChain (inr tb)) (trace (createWrapped wh rounds w)) /\
  (exists stuff,
      In (EvGetSigner origChain None (inr stuff))
         (trace (createWrapped wh rounds w)) /\
      s = ss_signer stuff /\
      parseAddress wh (signer_chain s) (signer_address s) = inr payer) /\
  (exists tbd err,
      hd_error (filter is_getWrappedAsset (trace (createWrapped wh rounds w)))
      = Some (EvGetWrappedAsset tbd tokenId (inl err))).
Proof.
  set (parsed := parseAddress wh (signer_chain s) (signer_address s)).
  unfold trace, result. walk_script; intros Hin; try polled_facts;
    split_trace Hin.
  all: subst parsed; injection Hin as <- <- <- <- <- <-.
  all: split; [reflexivity|].
  all: split; [reflexivity|].
  all: split; [find_in|].
  all: split; [eexists; split; [find_in | split; [reflexivity | assumption]]|].
  all: do 2 eexists; reflexivity.
Qed.

Lemma origin_submission_provenance_witness :
  hd_error (filter is_getWrappedAsset
              (trace (createWrapped (demo_sdk nothing_sent) 3 0%nat)))
  <> None.
Proof.
  destruct (@origin_submission_provenance
              nat (demo_sdk nothing_sent) 3 0%nat
              origChain {| tb_chain := "Avalanche" |}
              (tok_address tokenId) "0xA"
              {| signer_chain := "Avalanche"; signer_address := "0xA" |}
              (inr []))
    as (_ & _ & _ & _ & tbd & err & Hfirst).
  - find_in.
  - rewrite Hfirst. discriminate.
Defined.

(** X16: the registration is submitted on the destination chain only
    with a signed attestation that [getVaa] returned; it is built by the
    token bridge used for the lookups and paid and signed by the signer
    obtained for the destination chain with the gas limit. *)
Theorem destination_submission_provenance
        (W : Type) (wh : Sdk W) (rounds : nat) (w : W)
        (c : ChainContext) (tb : TokenBridge) (vaa : VAA) (payer : string)
        (s : Signer) (r : Thrown + list TxRef) :
  In (EvSignSendWait c (SubmitAttestationTxns tb vaa payer) s r)
     (trace (createWrapped wh rounds w)) ->
  c = destChain /\
  (exists id,
      In (EvGetVaa id attest_meta timeout (inr (Some vaa)))
         (trace (createWrapped wh rounds w))) /\
  In (EvGetTokenBridge destChain (inr tb)) (trace (createWrapped wh rounds w)) /\
  (exists stuff,
      In (EvGetSigner destChain (Some gasLimit) (inr stuff))
         (trace (createWrapped wh rounds w)) /\
      s = ss_signer stuff /\
      parseAddress wh (signer_chain s) (signer_address s) = inr payer) /\
  In (EvSubmitAttestation tb vaa payer) (trace (createWrapped wh rounds w)).
Proof.
  set (parsed := parseAddress wh (signer_chain s) (signer_address s)).
  unfold trace, result. walk_script; intros Hin; try polled_facts;
    split_trace Hin.
  all: subst parsed; injection Hin as <- <- <- <- <- <-.
  all: split; [reflexivity|].
  all: split; [eexists; find_in|].
  all: split; [find_in|].
  all: split; [eexists; split; [find_in | split; [reflexivity | assumption]]|].
  all: find_in.
Qed.

Lemma destination_submission_provenance_witness :
  exists id,
    In (EvGetVaa id attest_meta timeout (inr (Some demo_vaa)))
       (trace (createWrapped (demo_sdk (fresh_token (Some 2%nat))) 5 0%nat)).
Proof.
  eapply (@destination_submission_provenance
            nat (demo_sdk (fresh_token (Some 2%nat))) 5 0%nat
            destChain {| tb_chain := "Solana" |} demo_vaa "0xA"
            {| signer_chain := "Solana"; signer_address := "0xA" |}
            (inr [{| tx_chain := "Avalanche"; txid := "0xattest" |}])).
  find_in.
Defined.

(** X17: the polling loop starts only once the registration was accepted
    on the destination chain: a run in which the script waits, or looks
    the wrapped asset up a second time, contains a destination
    submission that went through. *)
Theorem polling_follows_destination_submission
        (W : Type) (wh : Sdk W) (rounds : nat) (w : W) :
  (exists ms, In (EvSetTimeout ms) (trace (createWrapped wh rounds w))) \/
  (2 <= List.length (filter is_getWrappedAsset
                       (trace (createWrapped wh rounds w))))%nat ->
  exists tb vaa payer s tsx,
    In (EvSignSendWait destChain (SubmitAttestationTxns tb vaa payer) s
                       (inr tsx))
       (trace (createWrapped wh rounds w)).
Proof.
  unfold trace, result. walk_script; intros Hpolls;
    first [ solve [do 5 eexists; find_in]
          | destruct Hpolls as [(ms & Hin) | Hmany];
            [ split_trace Hin | simpl in Hmany; lia ] ].
Qed.

Lemma polling_follows_destination_submission_witness :
  exists tb vaa payer s tsx,
    In (EvSignSendWait destChain (SubmitAttestationTxns tb vaa payer) s
                       (inr tsx))
       (trace (createWrapped (demo_sdk (fresh_token (Some 2%nat))) 5 0%nat)).
Proof.
  apply (@polling_follows_destination_submission
           nat (demo_sdk (fresh_token (Some 2%nat))) 5 0%nat).
  left. exists 2000. find_in.
Defined.

(** ** Counting calls *)

(** X18: nothing is submitted, parsed or looked up twice.  A run hands at
    most two transaction sets to [signSendWait] (the attestation, then
    the registration), builds each of them at most once, parses at most
    one transaction, asks for the signed attestation at most once, and
    sets up at most two signers and two token bridges. *)
Theorem attestation_calls_are_not_repeated
        (W : Type) (wh : Sdk W) (rounds : nat) (w : W) :
  (List.length (filter is_signSendWait (trace (createWrapped wh rounds w)))
   <= 2)%nat /\
  (List.length (filter is_createAttestation (trace (createWrapped wh rounds w)))
   <= 1)%nat /\
  (List.length (filter is_submitAttestation (trace (createWrapped wh rounds w)))
   <= 1)%nat /\
  (List.length (filter is_parseTransaction (trace (createWrapped wh rounds w)))
   <= 1)%nat /\
  (List.length (filter is_getVaa (trace (createWrapped wh rounds w)))
   <= 1)%nat /\
  (List.length (filter is_getSigner (trace (createWrapped wh rounds w)))
   <= 2)%nat /\
  (List.length (filter is_getTokenBridge (trace (createWrapped wh rounds w)))
   <= 2)%nat.
Proof.
  unfold trace, result. walk_script; try loop_facts.
  all: repeat split; count_calls.
Qed.

(** ** Failures *)

Ltac clean_trace :=
  unfold clean; simpl;
  rewrite ?forallb_app;
  repeat match goal with
         | H : clean _ = true |- _ => unfold clean in H; rewrite H; clear H
         end;
  reflexivity.

(** X19: apart from the wrapped-asset lookups, whose rejections the
    script swallows, a call that a collaborator rejects is the last
    thing [createWrapped] does, and the error thrown is that of the
    rejection. *)
Theorem rejected_call_ends_the_script
        (W : Type) (wh : Sdk W) (rounds : nat) (w : W)
        (before : list Event) (ev : Event) (rest : list Event)
        (err : Thrown) :
  trace (createWrapped wh rounds w) = before ++ ev :: rest ->
  rejection ev = Some err ->
  is_getWrappedAsset ev = false ->
  rest = [] /\ result (createWrapped wh rounds w) = Throw err.
Proof.
  apply script_fail_stop_split.
  unfold trace, result. walk_script; try loop_facts.
  all: first [ left; clean_trace
             | right; do 3 eexists;
               split; [ apply (@app_removelast_last _ _ (EvConsoleLog []));
                        discriminate
                      | simpl; repeat split ] ].
Qed.

Lemma rejected_call_ends_the_script_witness :
  result (createWrapped (outage_sdk "Solana" (fresh_token (Some 2%nat))) 5 0%nat)
  = Throw (Rejected 503).
Proof.
  eapply (@rejected_call_ends_the_script
            nat (outage_sdk "Solana" (fresh_token (Some 2%nat))) 5 0%nat
            (removelast
               (trace (createWrapped
                         (outage_sdk "Solana" (fresh_token (Some 2%nat)))
                         5 0%nat)))
            _ []).
  - vm_compute. reflexivity.
  - reflexivity.
  - reflexivity.
Defined.

(** X20: the ways [createWrapped] can fail.  If it throws, then either
    its last call was rejected with that error, or [parseAddress]
    rejected a signer's address with it, or it is the [TypeError] of
    reading [.txid] when the attestation submission returned no
    transaction, or it is the error "VAA not found..." after [getVaa]
    answered [null]. *)
Theorem script_errors
        (W : Type) (wh : Sdk W) (rounds : nat) (w : W) (err : Thrown) :
  result (createWrapped wh rounds w) = Throw err ->
  (exists before ev,
      trace (createWrapped wh rounds w) = before ++ [ev] /\
      rejection ev = Some err /\ is_getWrappedAsset ev = false) \/
  (exists stuff,
      (In (EvGetSigner origChain None (inr stuff))
          (trace (createWrapped wh rounds w)) \/
       In (EvGetSigner destChain (Some gasLimit) (inr stuff))
          (trace (createWrapped wh rounds w))) /\
      parseAddress wh (signer_chain (ss_signer stuff))
                   (signer_address (ss_signer stuff)) = inl err) \/
  (err = ThrowTypeError undefined_txid /\
   exists before tb payer s,
     trace (createWrapped wh rounds w)
     = before
       ++ [EvSignSendWait origChain
             (CreateAttestationTxns tb (tok_address tokenId) payer) s (inr []);
           EvConsoleLog [LStr "txids: "; LInspect []]]) \/
  (err = ThrowError vaa_not_found /\
   exists before id,
     trace (createWrapped wh rounds w)
     = before ++ [EvGetVaa id attest_meta timeout (inr None)]).
Proof.
  unfold trace, result. walk_script; intros Hthrown;
    try discriminate Hthrown; injection Hthrown as <-.
  all: try (exfalso;
            match goal with
            | Hpoll : waitForIt ?wh ?tb ?n ?w0 = (Throw ?e, _, _) |- _ =>
                apply (@waitForIt_never_throws _ wh tb n w0 e);
                rewrite Hpoll; reflexivity
            end).
  all: first
         [ solve [ left; do 2 eexists;
                   split; [ apply (@app_removelast_last _ _ (EvConsoleLog []));
                            discriminate
                          | simpl; split; reflexivity ] ]
         | solve [ right; left; eexists; split; cycle 1;
                   [ eassumption | first [left; find_in | right; find_in] ] ]
         | solve [ right; right; left; split; [reflexivity|];
                   eexists [_; _; _; _; _; _; _; _; _], _, _, _; reflexivity ]
         | solve [ right; right; right; split; [reflexivity|];
                   eexists [_; _; _; _; _; _; _; _; _; _; _; _; _; _], _;
                   reflexivity ] ].
Qed.

Lemma script_errors_witness :
  result (createWrapped (demo_sdk nothing_sent) 3 0%nat)
  = Throw (ThrowTypeError undefined_txid) /\
  last (trace (createWrapped (demo_sdk nothing_sent) 3 0%nat))
       (EvConsoleLog [])
  = EvConsoleLog [LStr "txids: "; LInspect []].
Proof.
  split; [reflexivity|].
  destruct (@script_errors nat (demo_sdk nothing_sent) 3 0%nat
                           (ThrowTypeError undefined_txid) eq_refl)
    as [(before & ev & Htrace & Hrej & _)
       | [(stuff & _ & Hparse)
         | [(_ & before & tb & payer & s & Htrace)
           | (Hwrong & _)]]].
  - exfalso.
    assert (Hlast : last (trace (createWrapped (demo_sdk nothing_sent) 3 0%nat))
                         ev = ev)
      by (rewrite Htrace; apply last_last).
    vm_compute in Hlast. rewrite <- Hlast in Hrej. discriminate Hrej.
  - discriminate Hparse.
  - reflexivity.
  - discriminate Hwrong.
Defined.

(** ** The value of the script *)

(** X21: the value [createWrapped] resolves with tells which path was
    taken.  It is the wrapped asset exactly when the only lookup of the
    run was the first check and it succeeded, nothing having been
    submitted; it is [undefined] after a full attestation, when both
    submissions went through and the loop found the asset, which is then
    only printed as the last line. *)
Theorem script_value_tells_the_path
        (W : Type) (wh : Sdk W) (rounds : nat) (w : W)
        (v : option Wrapped) :
  result (createWrapped wh rounds w) = Ok v ->
  match v with
  | Some found =>
      w_chain found = chain destChain /\
      (exists tb,
          filter is_getWrappedAsset (trace (createWrapped wh rounds w))
          = [EvGetWrappedAsset tb tokenId (inr (w_address found))]) /\
      filter is_signSendWait (trace (createWrapped wh rounds w)) = []
  | None =>
      exists found tb before,
        w_chain found = chain destChain /\
        In (EvGetWrappedAsset tb tokenId (inr (w_address found)))
           (trace (createWrapped wh rounds w)) /\
        trace (createWrapped wh rounds w)
        = before ++ [EvConsoleLog [LStr "Wrapped Asset: "; LWrapped found]] /\
        List.length (filter is_signSendWait (trace (createWrapped wh rounds w)))
        = 2%nat
  end.
Proof.
  unfold trace, result. walk_script; intros Hvalue;
    try discriminate Hvalue; injection Hvalue as <-.
  all: try solve [split; [reflexivity|]; split; [eexists; reflexivity | reflexivity]].
  all: match goal with
       | Hpoll : waitForIt _ _ _ _ = (Ok ?f, _, _) |- _ =>
           destruct (@waitForIt_found _ _ _ _ _ _ _ _ Hpoll) as (Hchain & Hfound);
           exists f
       end.
  all: loop_facts.
  all: eexists; eexists; (split; [exact Hchain|]).
  all: split; [do 20 right; apply in_or_app; left; exact Hfound|].
  all: split; [rewrite !app_comm_cons; reflexivity|].
  all: count_calls.
Qed.

Lemma script_value_tells_the_path_witness :
  List.length
    (filter is_signSendWait
       (trace (createWrapped (demo_sdk (fresh_token (Some 2%nat))) 5 0%nat)))
  = 2%nat.
Proof.
  destruct (@script_value_tells_the_path
              nat (demo_sdk (fresh_token (Some 2%nat))) 5 0%nat None eq_refl)
    as (found & tb & before & _ & _ & _ & Htwice).
  exact Htwice.
Defined.

End AttestationExtras.

(** * Properties of the transfer script *)

Module ScriptProperties.
Import TokenTransferPayload TransferScript TransferProperties TransferExtras.

Lemma transfer_events_app (t t' : list ScriptEvent) :
  transfer_events (t ++ t') = transfer_events t ++ transfer_events t'.
Proof. unfold transfer_events. apply flat_map_app. Qed.

Lemma transfer_events_map (t : list Event) :
  transfer_events (map Transfer t) = t.
Proof.
  unfold transfer_events.
  induction t as [|e t IH]; simpl; [reflexivity | now rewrite IH].
Qed.

Ltac script_call :=
  match goal with
  | |- context [wormhole ?wh ?n ?p ?w] =>
      destruct (wormhole wh n p w) as [[?e|[]] ?w] eqn:?Hwormhole
  | |- context [getSigner ?wh ?c ?w] =>
      destruct (getSigner wh c w) as [[?e|?stuff] ?w] eqn:?Hsigner
  | |- context [getDecimals ?wh ?c ?a ?w] =>
      destruct (getDecimals wh c a w) as [[?e|?decimals] ?w] eqn:?Hdecimals
  | |- context [from_txid ?wh ?c ?i ?w] =>
      destruct (from_txid wh c i w) as [[?e|?x] ?w] eqn:?Hfrom
  | |- context [tokenTransfer ?sdk ?d ?r ?rt ?w] =>
      destruct (tokenTransfer sdk d r rt w) as [[[?x| |] ?w] ?t] eqn:?Hrun
  | |- context [waitLog ?wh ?x ?w] =>
      destruct (waitLog wh x w) as [[?e|?receipt] ?w] eqn:?Hwait
  | |- context [units_parse ?wh ?s ?d] =>
      destruct (units_parse wh s d) as [?e|?units] eqn:?Hunits
  end.

Ltac open_the_script :=
  unfold main, script, inside, pure_call, bind, await, emit, ret, throw;
  cbn beta iota.

Ltac walk_the_script := open_the_script; repeat (script_call; simpl).

Ltac in_prefix := solve [simpl; repeat first [left; reflexivity | right]].

(** Nothing but events of [tokenTransfer] is wrapped in [Transfer]. *)
Lemma not_a_transfer_event (e : ScriptEvent) (t : list Event) :
  In e (map Transfer t) -> exists e', e = Transfer e' /\ In e' t.
Proof.
  intros Hin. apply in_map_iff in Hin. destruct Hin as (e' & <- & Hin). eauto.
Qed.

Lemma no_from_inside (t : list Event) :
  filter is_from (map Transfer t) = [].
Proof. induction t as [|e t IH]; [reflexivity | exact IH]. Qed.

Lemma no_waitLog_inside (t : list Event) :
  filter is_waitLog (map Transfer t) = [].
Proof. induction t as [|e t IH]; [reflexivity | exact IH]. Qed.

(** ** The transfer inside the script *)

(** X22: when no transaction id is given to recover from, what the
    script does on the chains is one run of [tokenTransfer].  Either it
    stops before (a signer, the decimals or an amount could not be
    obtained) and no transfer event occurs, or its transfer events are
    exactly those of [tokenTransfer] on the request built from the
    settings: the script's token, the amount parsed with the token's
    decimals, the two signers, the "Hello World!" payload, and a native
    gas amount when and only when the delivery is automatic. *)
Theorem script_runs_one_transfer
        (W : Type) (wh : ScriptSdk W) (cfg : Settings) (depth : nat) (w : W) :
  truthy_string (recoverTxid cfg) = false ->
  transfer_events (trace (script wh cfg depth w)) = [] \/
  exists source destination decimals units gas w',
    In (EvGetSigner sendChain (inr source)) (trace (script wh cfg depth w)) /\
    In (EvGetSigner rcvChain (inr destination))
       (trace (script wh cfg depth w)) /\
    In (EvGetDecimals (tok_chain script_token) (tok_address script_token)
                      (inr decimals))
       (trace (script wh cfg depth w)) /\
    units_parse wh (amt cfg) decimals = inr units /\
    (gas = None <-> set_automatic cfg = false) /\
    transfer_events (trace (script wh cfg depth w))
    = trace (tokenTransfer (transfer_sdk wh) depth
               {| token := script_token;
                  amount := units;
                  source := source;
                  destination := destination;
                  delivery := Some {| automatic := set_automatic cfg;
                                      nativeGas := gas |};
                  payload := Some hello_world |}
               (Some (set_roundTrip cfg)) w').
Proof.
  intros Hfresh. unfold trace. open_the_script. rewrite Hfresh. simpl.
  destruct (set_automatic cfg) eqn:Hauto; simpl.
  all: repeat (script_call; simpl).
  all: try (left; reflexivity).
  all: right; do 6 eexists.
  all: rewrite ?transfer_events_app, ?transfer_events_map, ?app_nil_r.
  all: split; [in_prefix|].
  all: split; [in_prefix|].
  all: split; [in_prefix|].
  all: split; [eassumption|].
  all: split; cycle 1.
  all: try match goal with
           | Hrun : tokenTransfer _ _ _ _ _ = _ |- _ = snd _ =>
               symmetry; exact (f_equal (@snd _ _) Hrun)
           end.
  all: split; intros; congruence.
Qed.

Lemma script_runs_one_transfer_witness :
  activations (transfer_events (trace (script (demo_script_sdk 12) shipped 2
                                              0%nat)))
  = 1%nat.
Proof.
  destruct (@script_runs_one_transfer
              nat (demo_script_sdk 12) shipped 2 0%nat eq_refl)
    as [Hnone | (source & destination & decimals & units & gas & w'
                 & _ & _ & _ & _ & _ & Hrun)].
  - vm_compute in Hnone. discriminate Hnone.
  - reflexivity.
Defined.

(** ** The script as shipped *)

(** X23: with the settings in the file, the script makes one manual,
    one-way transfer.  For every behaviour of the chains it asks for at
    most one transfer object, for the script's token with manual
    delivery, no native gas and the "Hello World!" payload; the source
    submission is signed by the signer of the sending chain and the
    redemption by the signer of the receiving chain; nothing is
    recovered from a transaction id. *)
Theorem shipped_script_is_manual_one_way
        (W : Type) (wh : ScriptSdk W) (depth : nat) (w : W) :
  (activations (transfer_events (trace (main wh depth w))) <= 1)%nat /\
  (forall d r,
      In (EvTokenTransfer d r) (transfer_events (trace (main wh depth w))) ->
      td_token d = script_token /\ td_automatic d = false /\
      td_nativeGas d = None /\ td_payload d = Some hello_world) /\
  (forall x s r,
      In (EvInitiateTransfer x s r)
         (transfer_events (trace (main wh depth w))) ->
      exists stuff,
        In (EvGetSigner sendChain (inr stuff)) (trace (main wh depth w)) /\
        s = ss_signer stuff) /\
  (forall x s r,
      In (EvCompleteTransfer x s r)
         (transfer_events (trace (main wh depth w))) ->
      exists stuff,
        In (EvGetSigner rcvChain (inr stuff)) (trace (main wh depth w)) /\
        s = ss_signer stuff) /\
  filter is_from (trace (main wh depth w)) = [].
Proof.
  unfold trace. walk_the_script.
  all: rewrite ?transfer_events_app, ?transfer_events_map, ?app_nil_r.
  all: try match goal with
           | Hrun : tokenTransfer ?sdk ?d ?route ?rt ?w0 = (_, _, ?t) |- _ =>
               let Hone := fresh "Hone" in
               pose proof (@run_one_way _ sdk d route rt w0 eq_refl) as Hone;
               rewrite Hrun in Hone; unfold trace in Hone;
               cbn [snd] in Hone;
               destruct Hone as (Hact & Hdetails & Hinit & Hdone)
           end.
  all: cbn [transfer_events flat_map app]; rewrite ?app_nil_r.
  all: split; [first [assumption | unfold activations; simpl; lia]|].
  all: split;
    [ intros d r Hin;
      first [ destruct Hin
            | apply Hdetails in Hin; subst d; repeat split ] |].
  all: split;
    [ intros x' s r Hin;
      first [ destruct Hin
            | apply Hinit in Hin; subst s; eexists; split;
              [in_prefix | reflexivity] ] |].
  all: split;
    [ intros x' s r Hin;
      first [ destruct Hin
            | apply Hdone in Hin; subst s; eexists; split;
              [in_prefix | reflexivity] ] |].
  all: simpl; rewrite ?filter_app, ?no_from_inside; reflexivity.
Qed.

Lemma shipped_script_is_manual_one_way_witness :
  td_automatic (transfer_details (demo_route false)) = false /\
  (activations (transfer_events (trace (main (demo_script_sdk 12) 2 0%nat)))
   <= 1)%nat.
Proof.
  destruct (@shipped_script_is_manual_one_way nat (demo_script_sdk 12) 2 0%nat)
    as (Hone & Hdetails & _).
  split; [|exact Hone].
  apply (Hdetails (transfer_details (demo_route false))
                  (inr {| xfer_id := 0;
                          transfer := transfer_details (demo_route false) |})).
  vm_compute. left. reflexivity.
Defined.

(** ** Recovery *)

(** X24: when a transaction id to recover from is set, the script
    submits nothing: [tokenTransfer] is not run at all, the transfer
    object comes from [TokenTransfer.from], called with the chain of
    the sending signer and that transaction id, and it is that object
    the script waits on. *)
Theorem recovery_submits_nothing
        (W : Type) (wh : ScriptSdk W) (cfg : Settings) (depth : nat) (w : W) :
  truthy_string (recoverTxid cfg) = true ->
  transfer_events (trace (script wh cfg depth w)) = [] /\
  (forall c id r,
      In (EvFrom c id r) (trace (script wh cfg depth w)) ->
      recoverTxid cfg = Some id /\
      exists stuff,
        In (EvGetSigner sendChain (inr stuff)) (trace (script wh cfg depth w)) /\
        c = chain (ss_chain stuff)) /\
  (forall x r,
      In (EvWaitLog x r) (trace (script wh cfg depth w)) ->
      exists c id, In (EvFrom c id (inr x)) (trace (script wh cfg depth w))).
Proof.
  intros Hset.
  destruct (recoverTxid cfg) as [id0|] eqn:Hid; [|discriminate Hset].
  unfold trace. open_the_script. rewrite Hid. simpl in Hset |- *.
  rewrite Hset. simpl.
  repeat (script_call; simpl).
  all: split; [reflexivity|].
  all: split;
    [ intros c id r Hin; split_in Hin; injection Hin as <- <- <-;
      (split; [reflexivity | eexists; split; [in_prefix | reflexivity]])
    | intros x' r Hin; split_in Hin; injection Hin as <- <-;
      do 2 eexists; in_prefix ].
Qed.

Lemma recovery_submits_nothing_witness :
  transfer_events
    (trace (script (demo_script_sdk 12)
                   {| amt := "10"; set_automatic := false;
                      set_roundTrip := false; recoverTxid := Some "0xabc" |}
                   2 0%nat))
  = [].
Proof.
  apply (@recovery_submits_nothing
           nat (demo_script_sdk 12)
           {| amt := "10"; set_automatic := false;
              set_roundTrip := false; recoverTxid := Some "0xabc" |}
           2 0%nat).
  reflexivity.
Defined.

(** ** The receipt *)

(** X25: the script waits on a transfer at most once, and only on an
    object that [tokenTransfer] created or that was recovered; a receipt
    is printed only if [waitLog] resolved with it, and printing it is
    the last thing the script does and what makes it resolve. *)
Theorem receipt_follows_the_transfer
        (W : Type) (wh : ScriptSdk W) (cfg : Settings) (depth : nat) (w : W) :
  (List.length (filter is_waitLog (trace (script wh cfg depth w))) <= 1)%nat /\
  (forall x r,
      In (EvWaitLog x r) (trace (script wh cfg depth w)) ->
      (exists d,
          In (EvTokenTransfer d (inr x))
             (transfer_events (trace (script wh cfg depth w)))) \/
      (exists c id, In (EvFrom c id (inr x)) (trace (script wh cfg depth w)))) /\
  (forall receipt,
      In (EvLogReceipt receipt) (trace (script wh cfg depth w)) ->
      result (script wh cfg depth w) = Ok tt /\
      exists before x,
        trace (script wh cfg depth w)
        = before ++ [EvWaitLog x (inr receipt); EvLogReceipt receipt]) /\
  (result (script wh cfg depth w) = Ok tt ->
   exists receipt, In (EvLogReceipt receipt) (trace (script wh cfg depth w))).
Proof.
  unfold trace, result. open_the_script.
  destruct (truthy_string (recoverTxid cfg)); simpl;
    destruct (set_automatic cfg); simpl;
    repeat (script_call; simpl).
  all: try match goal with
           | Hrun : tokenTransfer ?sdk ?d ?route ?rt ?w0 = (Ok ?x, _, ?t) |- _ =>
               let Hmade := fresh "Hmade" in
               pose proof (@run_returns_created _ sdk d route rt w0 x) as Hmade;
               rewrite Hrun in Hmade; unfold trace, result in Hmade;
               cbn [fst snd] in Hmade; specialize (Hmade eq_refl)
           end.
  all: rewrite ?transfer_events_app, ?transfer_events_map.
  all: cbn [transfer_events flat_map app]; rewrite ?app_nil_r.
  all: split; [simpl; rewrite ?filter_app, ?no_waitLog_inside; simpl; lia|].
  all: split;
    [ intros x' r Hin; simpl in Hin;
      repeat (destruct Hin as [Hin|Hin]; try discriminate Hin);
      try contradiction;
      try (apply in_app_or in Hin; destruct Hin as [Hin|Hin];
           [ apply not_a_transfer_event in Hin;
             destruct Hin as (e' & He' & _); discriminate He'
           | simpl in Hin;
             repeat (destruct Hin as [Hin|Hin]; try discriminate Hin);
             try contradiction ]);
      try (apply not_a_transfer_event in Hin;
           destruct Hin as (e' & He' & _); discriminate He');
      injection Hin as <- <-;
      first [ left; exact Hmade | right; do 2 eexists; in_prefix ]
    | ].
  all: split;
    [ intros rc Hin; simpl in Hin;
      repeat (destruct Hin as [Hin|Hin]; try discriminate Hin);
      try contradiction;
      try (apply in_app_or in Hin; destruct Hin as [Hin|Hin];
           [ apply not_a_transfer_event in Hin;
             destruct Hin as (e' & He' & _); discriminate He'
           | simpl in Hin;
             repeat (destruct Hin as [Hin|Hin]; try discriminate Hin);
             try contradiction ]);
      try (apply not_a_transfer_event in Hin;
           destruct Hin as (e' & He' & _); discriminate He');
      injection Hin as <-;
      (split; [reflexivity|]);
      first [ eexists [_; _; _; _; _], _; reflexivity
            | eexists (_ :: _ :: _ :: _ :: map Transfer _), _; reflexivity ]
    | intros Hok; try discriminate Hok; eexists;
      first [ in_prefix
            | simpl; repeat right; apply in_or_app; right; in_prefix ] ].
Qed.

Lemma receipt_follows_the_transfer_witness :
  result (script (demo_script_sdk 12) shipped 2 0%nat) = Ok tt.
Proof.
  destruct (@receipt_follows_the_transfer
              nat (demo_script_sdk 12) shipped 2 0%nat)
    as (_ & _ & Hprinted & _).
  apply (Hprinted "receipt").
  vm_compute. repeat first [left; reflexivity | right].
Defined.

End ScriptProperties.
